(** * instauto: the media upload and publish pipeline

    A shallow embedding of [instauto/api/actions/helpers.py] and of the
    upload part of [instauto/api/actions/post.py] (class [PostMixin]),
    followed by the properties of the pipeline.

    Python dictionaries are finite maps ([gmap string pyval]); exceptions are
    an explicit error result; the requests handed to the transport are
    recorded, in order, in the state that every method threads. *)

From Stdlib Require Import ZArith String Ascii List DecimalString DecimalZ.
From Stdlib Require Import Floats.SpecFloat.
From stdpp Require Import gmap strings list fin_maps.
From Equations Require Import Equations.

#[local] Set Warnings "-register-all".

(** ** Python values *)

(** The values that travel through the pipeline: what [json] can decode and
    encode. *)
Inductive pyval : Type :=
| PNone
| PBool (b : bool)
| PInt (z : Z)
| PFloat (f : spec_float)
| PStr (s : string)
| PList (l : list pyval)
| PDict (d : gmap string pyval).

(** A Python [dict] with string keys. *)
Abbreviation dict := (gmap string pyval).

Inductive exn : Type :=
| ValueError (msg : string)
| KeyError (key : string)
| IndexError
| TypeError
| AttributeError
| OSError (errno : nat)
| JSONDecodeError
| BadResponse
| PyException (msg : string) (arg : pyval)
| TransportError (code : nat).

(** The result of running Python code: a value or a raised exception. *)
Inductive outcome (A : Type) : Type :=
| Ok (a : A)
| Raise (e : exn).
Arguments Ok {A} a.
Arguments Raise {A} e.

(** [try: c except E: h], for the exceptions selected by [handles]. *)
Definition try_except {A} (c : outcome A) (handles : exn -> bool) (h : outcome A)
  : outcome A :=
  match c with
  | Ok a => Ok a
  | Raise e => if handles e then h else Raise e
  end.

Definition is_AttributeError (e : exn) : bool :=
  match e with AttributeError => true | _ => false end.

(** Truth value of a Python object. *)
Definition py_truthy (v : pyval) : bool :=
  match v with
  | PNone => false
  | PBool b => b
  | PInt z => negb (z =? 0)%Z
  | PFloat (S754_zero _) => false
  | PFloat _ => true
  | PStr s => negb (String.eqb s "")
  | PList l => match l with [] => false | _ => true end
  | PDict d => negb (bool_decide (d = ∅))
  end.

(** [v is None] *)
Definition py_is_none (v : pyval) : bool :=
  match v with PNone => true | _ => false end.

(** [v != s] for a string literal [s]. *)
Definition py_ne_str (v : pyval) (s : string) : bool :=
  match v with PStr t => negb (String.eqb t s) | _ => true end.

(** [str(z)] for an int: its decimal numeral. *)
Definition str_of_int (z : Z) : string := NilZero.string_of_int (Z.to_int z).

(** A plain decimal numeral, optionally signed with [-]. *)
Definition parse_decimal (s : string) : option Z :=
  option_map Z.of_int (NilZero.int_of_string s).

(** [d.pop(k)]: the value and the dict without [k], or [KeyError]. *)
Definition dict_pop (k : string) (d : dict) : outcome (pyval * dict) :=
  match d !! k with
  | Some v => Ok (v, delete k d)
  | None => Raise (KeyError k)
  end.

(** [v[k]] for a string key. *)
Definition py_getitem (v : pyval) (k : string) : outcome pyval :=
  match v with
  | PDict d => match d !! k with Some x => Ok x | None => Raise (KeyError k) end
  | _ => Raise TypeError
  end.

(** [v[0]] *)
Definition py_getitem0 (v : pyval) : outcome pyval :=
  match v with
  | PList (x :: _) => Ok x
  | PList [] => Raise IndexError
  | PStr (String c _) => Ok (PStr (String c ""))
  | PStr "" => Raise IndexError
  | PDict _ => Raise (KeyError "0")
  | _ => Raise TypeError
  end.

(** [{**a, **b}]: the later mapping wins. *)
Definition dict_merge (a b : dict) : dict := b ∪ a.

(** [{**v}]: unpacking needs a mapping. *)
Definition py_mapping (v : pyval) : outcome dict :=
  match v with PDict d => Ok d | _ => Raise TypeError end.

(** *** Strings *)

(** [s.replace(old, new)] for a one-character [old]. *)
Fixpoint str_replace (old : ascii) (new : string) (s : string) : string :=
  match s with
  | EmptyString => EmptyString
  | String c s' =>
      if Ascii.eqb c old then new +:+ str_replace old new s'
      else String c (str_replace old new s')
  end.

(** [s.split(sep)] for a one-character [sep]; the result is never empty. *)
Fixpoint str_split (sep : ascii) (s : string) : list string :=
  match s with
  | EmptyString => [EmptyString]
  | String c s' =>
      if Ascii.eqb c sep then EmptyString :: str_split sep s'
      else match str_split sep s' with
           | h :: t => String c h :: t
           | [] => [String c EmptyString]
           end
  end.

(** [l[-1]] on a list of strings that is known not to be empty. *)
Definition list_last (l : list string) : string := List.last l EmptyString.

(** [length.replace('.', '').replace(',', '')], the value sent as
    [upload_media_duration_ms]. *)
Definition duration_ms (length : string) : string :=
  str_replace "," "" (str_replace "." "" length).

(** ** The world outside the pipeline *)

Inductive Method : Type := GET | POST.

(** The body of a request: absent, text, bytes or a key/value payload. *)
Inductive body : Type :=
| NoData
| DataStr (s : string)
| DataBytes (b : list Byte.byte)
| DataDict (d : dict).

(** One call of [self._request]. *)
Record Request : Type := mkRequest {
  endpoint : string;
  method : Method;
  headers : option dict;
  query : option dict;
  data : body;
  signed : bool
}.

(** The transport's answer; [resp.json()] may raise. *)
Record Response : Type := mkResponse { json : outcome pyval }.

(** [pathlib.Path], by the attributes the code reads. *)
Record Path : Type := mkPath { path_text : string; suffix : string }.

(** A path as the code takes it, [Union[str, Path]]: the argument of
    [get_image_type], and the thumbnail path of a video post. *)
Inductive pathlike : Type :=
| StrPath (s : string)
| PathObj (p : Path).

(** [open] takes a [str] as it is and a path object through [os.fspath]. *)
Definition fspath (p : pathlike) : pyval :=
  match p with
  | StrPath s => PStr s
  | PathObj p => PStr (path_text p)
  end.

Record DeviceProfile : Type := mkDeviceProfile {
  manufacturer : pyval;
  model : pyval;
  android_sdk_version : pyval;
  android_release : pyval
}.

Record Device : Type := mkDevice {
  dev_manufacturer : pyval;
  dev_model : pyval;
  dev_android_sdk_version : Z;
  dev_android_release : pyval
}.

(** [structs.post.Location]: the attributes the code reads, and the rest of
    the instance's [__dict__]. *)
Record Location : Type := mkLocation {
  lat : pyval;
  lng : pyval;
  name : pyval;
  facebook_places_id : pyval;
  other_attrs : dict
}.

(** [obj.__dict__] of a [Location]. *)
Definition Location_dict (l : Location) : dict :=
  <["lat" := lat l]> (<["lng" := lng l]> (<["name" := name l]>
    (<["facebook_places_id" := facebook_places_id l]> (other_attrs l)))).

(** [PostFeed] / [PostStory]. *)
Record Post : Type := mkPost {
  device : option Device;
  location : option Location;
  source_type : Z;
  upload_id : pyval
}.

Record PostFeedVideo : Type := mkPostFeedVideo {
  path : pyval;
  thumbnail_path : pathlike;
  height : pyval;
  width : pyval;
  video_length : string;
  video_upload_id : pyval
}.

(** Everything the methods read but do not define: the transport, the file
    system, the random and time sources, the session, the serializers of the
    standard library and the declarations of [structs]. *)
Record Env : Type := mkEnv {
  (** [self._request], given the earlier calls of the run *)
  transport : list Request -> Request -> outcome Response;
  (** [open(p, 'rb').read()] *)
  open_rb : pyval -> outcome (list Byte.byte);
  (** [str(uuid.uuid4())], by draw *)
  uuid4 : nat -> string;
  (** [self._gen_uuid()], by draw *)
  gen_uuid : nat -> pyval;
  (** [str(time.time())], by draw *)
  time_str : nat -> string;
  (** [self.state.session_id] *)
  session_id : pyval;
  device_profile : DeviceProfile;
  (** [json.dumps] *)
  json_dumps : pyval -> string;
  (** [str] of floats and containers *)
  str_other : pyval -> string;
  (** [int] of floats and of strings that are not plain decimal numerals *)
  int_other : pyval -> outcome Z;
  (** [PostLocation.Feed.value], [PostLocation.Story.value] *)
  Feed_value : Z;
  Story_value : Z;
  (** [obj.fill(self).to_dict()] *)
  post_to_dict : Post -> dict;
  video_to_dict : PostFeedVideo -> dict
}.

(** The requests issued so far, oldest first, and the number of random or
    clock draws made. *)
Record State : Type := mkState { trace : list Request; draws : nat }.

(** ** Computations: state and exceptions *)

Definition M (S A : Type) : Type := S -> outcome A * S.

Definition ret {S A} (a : A) : M S A := fun s => (Ok a, s).

Definition bind {S A B} (m : M S A) (k : A -> M S B) : M S B :=
  fun s => match m s with
           | (Ok a, s') => k a s'
           | (Raise e, s') => (Raise e, s')
           end.

Definition raise {S A} (e : exn) : M S A := fun s => (Raise e, s).

(** A pure step that may raise. *)
Definition lift {S A} (o : outcome A) : M S A := fun s => (o, s).

Notation "'let*' x ':=' m 'in' k" := (bind m (fun x => k))
  (at level 10, x pattern, m at level 100, k at level 200).

(** [{k1: v1, ..., kn: vn}]: a later binding of a key replaces an earlier one. *)
Definition py_dict (items : list (string * pyval)) : dict :=
  fold_left (fun d kv => <[kv.1 := kv.2]> d) items ∅.

(** Reading chunks of [chunksize] bytes from an open file until [read] returns
    nothing: the loop of [PostMixin._bytes_from_file]. *)
Equations? read_chunks (chunksize : nat) (f : list Byte.byte) : list (list Byte.byte)
  by wf (List.length f) lt :=
  read_chunks chunksize f with Logic.inspect (take chunksize f) => {
    | exist _ nil _ := [];
    | exist _ (cons b bs) _ := (b :: bs) :: read_chunks chunksize (drop chunksize f) }.
Proof.
  destruct chunksize; [done|]. destruct f; [done|].
  rewrite length_drop. simpl. lia.
Qed.

Section WithEnv.

Context (E : Env).

(** *** Built-in conversions *)

(** [str(v)] *)
Definition py_str (v : pyval) : string :=
  match v with
  | PStr s => s
  | PInt z => str_of_int z
  | PNone => "None"
  | PBool true => "True"
  | PBool false => "False"
  | _ => str_other E v
  end.

(** [int(v)] *)
Definition py_int (v : pyval) : outcome Z :=
  match v with
  | PInt z => Ok z
  | PBool b => Ok (if b then 1 else 0)%Z
  | PStr s => match parse_decimal s with
              | Some z => Ok z
              | None => int_other E v
              end
  | PFloat _ => int_other E v
  | _ => Raise TypeError
  end.

(** ** helpers.py *)

Definition get_image_type (p : pathlike) : string :=
  match p with
  | PathObj p => suffix p
  | StrPath s => list_last (str_split "." s)
  end.

Definition build_default_rupload_params (upload_id : pyval) (quality : Z) : dict :=
  py_dict [
    ("upload_id", upload_id);
    ("media_type", PInt 1);
    ("retry_context", PStr (json_dumps E (PDict (py_dict [
        ("num_reupload", PInt 0);
        ("num_step_auto_retry", PInt 0);
        ("num_step_manual_retry", PInt 0)]))));
    ("xsharing_user_ids", PStr (json_dumps E (PList [])));
    ("image_compression", PStr (json_dumps E (PDict (py_dict [
        ("lib_name", PStr "moz");
        ("lib_version", PStr "3.1.m");
        ("quality", PStr (py_str (PInt quality)))]))))
  ].

(** [input_dict] is updated in place and returned; [pop] of a missing key
    raises [KeyError], which the handler for [AttributeError] lets through. *)
Fixpoint remove_from_dict (input_dict : dict) (to_remove : list string) : outcome dict :=
  match to_remove with
  | [] => Ok input_dict
  | k :: ks =>
      match try_except
              (match dict_pop k input_dict with
               | Ok (_, d) => Ok d
               | Raise e => Raise e
               end)
              is_AttributeError (Ok input_dict) with
      | Ok d => remove_from_dict d ks
      | Raise e => Raise e
      end
  end.

(** ** post.py: class PostMixin *)

(** [self._request(...)]: the call is recorded, then answered by the
    transport. *)
Definition _request (req : Request) : M State Response :=
  fun st => (transport E (trace st) req,
             {| trace := trace st ++ [req]; draws := draws st |}).

(** One draw from a random or clock source. *)
Definition draw {A} (source : nat -> A) : M State A :=
  fun st => (Ok (source (draws st)), {| trace := trace st; draws := S (draws st) |}).

Definition _request_fb_places_id (obj : Location) : M State string :=
  let* resp :=
    (if py_is_none (lat obj) || py_is_none (lng obj) then
       if py_is_none (name obj) then
         raise (ValueError "Atleast a lat/lng combination or name needs to be specified.")
       else
         let* rank_token := draw (gen_uuid E) in
         _request {| endpoint := "location_search"; method := GET; headers := None;
                     query := Some (py_dict [("search_query", name obj);
                                             ("rankToken", rank_token)]);
                     data := NoData; signed := false |}
     else
       let query0 := py_dict [("latitude", lat obj); ("longitude", lng obj)] in
       let query1 := if py_truthy (name obj)
                     then <["search_query" := name obj]> query0 else query0 in
       _request {| endpoint := "location_search"; method := GET; headers := None;
                   query := Some query1; data := NoData; signed := false |}) in
  let* as_json := lift (json resp) in
  let* status := lift (py_getitem as_json "status") in
  if py_ne_str status "ok" then raise BadResponse
  else
    let* venues := lift (py_getitem as_json "venues") in
    let* venue := lift (py_getitem0 venues) in
    let* external_id := lift (py_getitem venue "external_id") in
    ret (py_str external_id).

(** [quality or 70] *)
Definition quality_or (quality : option Z) (default : Z) : Z :=
  match quality with
  | Some q => if (q =? 0)%Z then default else q
  | None => default
  end.

Definition upload_image_headers (waterfall_id entity_length entity_name entity_type
                                session_id upload_id : pyval) (quality : option Z) : dict :=
  py_dict [
    ("x-fb-photo-waterfall-id", waterfall_id);
    ("x-entity-length", PStr (py_str entity_length));
    ("x-entity-name", entity_name);
    ("x-instagram-rupload-params",
       PStr (json_dumps E (PDict (build_default_rupload_params upload_id
                                    (quality_or quality 70)))));
    ("x-entity-type", entity_type);
    ("offset", PStr "0");
    ("scene_capture_type", PStr "standard");
    ("creation_logger_session_id", session_id)
  ].

Definition upload_image_request (headers : dict) (content : list Byte.byte) : Request :=
  {| endpoint := "https://i.instagram.com/rupload_igphoto/"
                   +:+ py_str (default PNone (headers !! "x-entity-name"));
     method := POST; headers := Some headers; query := None;
     data := DataBytes content; signed := false |}.

Definition _upload_image (path waterfall_id entity_length entity_name entity_type
                          session_id upload_id : pyval) (quality : option Z)
  : M State Response :=
  let headers := upload_image_headers waterfall_id entity_length entity_name entity_type
                                      session_id upload_id quality in
  let* content := lift (open_rb E path) in
  _request (upload_image_request headers content).

(** The object handed to [post_post] is updated in place, so it is part of
    the state of that method. *)
Record PostRun : Type := mkPostRun { world : State; obj_now : Post }.

(** A step that leaves the object alone. *)
Definition in_world {A} (m : M State A) : M PostRun A :=
  fun r => let '(o, w) := m (world r) in (o, {| world := w; obj_now := obj_now r |}).

Definition get_obj : M PostRun Post := fun r => (Ok (obj_now r), r).

Definition set_obj (o : Post) : M PostRun unit :=
  fun r => (Ok tt, {| world := world r; obj_now := o |}).

Definition retry_context_headers : dict :=
  py_dict [("retry_context",
            PStr (json_dumps E (PDict (py_dict [("num_reupload", PInt 0);
                                                ("num_step_auto_retry", PInt 0);
                                                ("num_step_manual_retry", PInt 0)]))))].

Definition post_post (quality : option Z) : M PostRun Response :=
  let* obj := get_obj in
  let as_dict := post_to_dict E obj in
  let* _ :=
    (match device obj with
     | None =>
         let* sdk := lift (py_int (android_sdk_version (device_profile E))) in
         set_obj {| device := Some {| dev_manufacturer := manufacturer (device_profile E);
                                      dev_model := model (device_profile E);
                                      dev_android_sdk_version := sdk;
                                      dev_android_release := android_release (device_profile E) |};
                    location := location obj;
                    source_type := source_type obj;
                    upload_id := upload_id obj |}
     | Some _ => ret tt
     end) in
  let* (image_path, as_dict) := lift (dict_pop "image_path" as_dict) in
  let* (x_fb_waterfall_id, as_dict) := lift (dict_pop "x_fb_waterfall_id" as_dict) in
  let* (entity_length, as_dict) := lift (dict_pop "entity_length" as_dict) in
  let* (entity_name, as_dict) := lift (dict_pop "entity_name" as_dict) in
  let* (entity_type, as_dict) := lift (dict_pop "entity_type" as_dict) in
  let* _ := in_world (_upload_image image_path x_fb_waterfall_id entity_length entity_name
                                    entity_type (session_id E) (upload_id obj) quality) in
  let* obj := get_obj in
  let* as_dict :=
    (match location obj with
     | Some loc =>
         let* loc :=
           (if negb (py_truthy (facebook_places_id loc)) then
              let* places_id := in_world (_request_fb_places_id loc) in
              let loc' := {| lat := lat loc; lng := lng loc; name := name loc;
                             facebook_places_id := PStr places_id;
                             other_attrs := other_attrs loc |} in
              let* _ := set_obj {| device := device obj; location := Some loc';
                                   source_type := source_type obj;
                                   upload_id := upload_id obj |} in
              ret loc'
            else ret loc) in
         ret (<["location" := PStr (json_dumps E (PDict (Location_dict loc)))]> as_dict)
     | None => ret as_dict
     end) in
  let headers := retry_context_headers in
  if (source_type obj =? Feed_value E)%Z then
    in_world (_request {| endpoint := "media/configure/"; method := POST;
                          headers := Some headers; query := None;
                          data := DataDict as_dict; signed := true |})
  else if (source_type obj =? Story_value E)%Z then
    in_world (_request {| endpoint := "media/configure_to_story/"; method := POST;
                          headers := Some headers; query := None;
                          data := DataDict as_dict; signed := true |})
  else
    raise (PyException "{} is not a supported post location." (PInt (source_type obj))).

(** The generator: the file is opened when the first chunk is asked for. *)
Definition _bytes_from_file (filename : pyval) (chunksize : nat)
  : outcome (list (list Byte.byte)) :=
  match open_rb E filename with
  | Ok f => Ok (read_chunks chunksize f)
  | Raise e => Raise e
  end.

Definition transfer_endpoint (entity_name : string) : string :=
  "rupload_igvideo/" +:+ entity_name +:+ "?segmented=true&phase=transfer".

(** The fixed markers of a Transfer POST. *)
Definition segment_headers (offset : Z) : dict :=
  py_dict [("segment-type", PInt 3);
           ("x-entity-type", PStr "video/mp4");
           ("offset", PStr "0");
           ("segment-start-offset", PStr (py_str (PInt offset)))].

Definition transfer_get_request (headers : dict) (entity_name : string) : Request :=
  {| endpoint := transfer_endpoint entity_name; method := GET;
     headers := Some headers; query := None; data := NoData; signed := false |}.

(** The headers of a Transfer POST: [{**headers, **resp.json(), **{...}}]. *)
Definition transfer_post_request (headers : dict) (entity_name : string)
    (resp_headers : dict) (offset : Z) (chunk : list Byte.byte) : Request :=
  {| endpoint := transfer_endpoint entity_name; method := POST;
     headers := Some (dict_merge (dict_merge headers resp_headers)
                                 (segment_headers offset));
     query := None; data := DataBytes chunk; signed := false |}.

(** The body of the [for chunk in ...] loop of [_upload_video_in_chunks],
    run over the chunks that remain; the result is the final [offset]. *)
Fixpoint transfer_chunks (headers : dict) (chunks : list (list Byte.byte)) (offset : Z)
  : M State Z :=
  match chunks with
  | [] => ret offset
  | chunk :: rest =>
      let* entity_name := draw (uuid4 E) in
      let* resp := _request (transfer_get_request headers entity_name) in
      let* resp_json := lift (json resp) in
      let* resp_headers := lift (py_mapping resp_json) in
      let* _ := _request (transfer_post_request headers entity_name resp_headers
                                                offset chunk) in
      transfer_chunks headers rest (offset + Z.of_nat (List.length chunk))
  end.

(** The dict that [_upload_video_in_chunks] serializes into
    [x-instagram-rupload-params], [h] and [w] being [int(obj.height)] and
    [int(obj.width)]. *)
Definition video_rupload_dict (obj : PostFeedVideo) (h w : Z) : dict :=
  py_dict [
    ("upload_media_height", PStr (py_str (PInt h)));
    ("upload_media_width", PStr (py_str (PInt w)));
    ("xsharing_user_ids", PList []);
    ("upload_media_duration_ms", PStr (duration_ms (video_length obj)));
    ("upload_id", video_upload_id obj);
    ("retry_context", PStr (json_dumps E (PDict (py_dict [
        ("num_step_auto_retry", PInt 0);
        ("num_reupload", PInt 0);
        ("num_step_manual_retry", PInt 0)]))));
    ("media_type", PStr "2")].

Definition video_rupload_params (obj : PostFeedVideo) (h w : Z) : string :=
  json_dumps E (PDict (video_rupload_dict obj h w)).

Definition start_request (rupload_params : string) (entity_name : string) : Request :=
  {| endpoint := "rupload_igvideo/" +:+ entity_name +:+ "/"; method := POST;
     headers := Some (py_dict [("x-instagram-rupload-params", PStr rupload_params)]);
     query := Some (py_dict [("segmented", PStr "true"); ("phase", PStr "start")]);
     data := DataStr ""; signed := false |}.

Definition _upload_video_in_chunks (obj : PostFeedVideo) : M State dict :=
  let* h := lift (py_int (height obj)) in
  let* w := lift (py_int (width obj)) in
  let rupload_params := video_rupload_params obj h w in
  let* entity_name := draw (uuid4 E) in
  let* resp := _request (start_request rupload_params entity_name) in
  let* resp_json := lift (json resp) in
  let* stream_id := lift (py_getitem resp_json "stream_id") in
  let headers := py_dict [("stream_id", stream_id)] in
  let* chunks := lift (_bytes_from_file (path obj) 1024) in
  let* _ := transfer_chunks headers chunks 0 in
  ret headers.

(** [image_type not in ['jpg', 'jpeg']] *)
Definition not_jpeg (image_type : string) : bool :=
  negb (String.eqb image_type "jpg" || String.eqb image_type "jpeg").

Definition end_request (entity_name : string) (headers : dict) : Request :=
  {| endpoint := "rupload_igvideo/" +:+ entity_name +:+ "?segmented=true&phase=end";
     method := POST; headers := Some headers; query := None;
     data := NoData; signed := false |}.

Definition _upload_video_thumbnail (obj : PostFeedVideo) (headers : dict) : M State unit :=
  let* thumbnail_entity_name := draw (uuid4 E) in
  let* f := lift (open_rb E (fspath (thumbnail_path obj))) in
  let thumbnail_entity_length := Z.of_nat (List.length f) in
  let image_type := get_image_type (thumbnail_path obj) in
  if not_jpeg image_type then
    raise (ValueError "Instagram only accepts jpg/jpeg images")
  else
    let thumbnail_entity_type := "image/" +:+ image_type in
    let* waterfall_id := draw (uuid4 E) in
    let* _ := _request (end_request thumbnail_entity_name headers) in
    let* _ := lift (open_rb E (fspath (thumbnail_path obj))) in
    let* now := draw (time_str E) in
    let* _ := _upload_image (fspath (thumbnail_path obj)) (PStr waterfall_id)
                            (PStr (py_str (PInt thumbnail_entity_length)))
                            (PStr thumbnail_entity_name) (PStr thumbnail_entity_type)
                            (session_id E) (PStr now) (Some 0%Z) in
    ret tt.

Definition finish_removed : list string :=
  ["path"; "thumbnail_path"; "creation_logger_session_id"; "multi_sharing";
   "height"; "width"; "quality_info"; "pdg_hash_info"].

Definition configure_removed : list string :=
  ["path"; "thumbnail_path"; "audio_muted"; "height"; "width";
   "quality_info"; "pdg_hash_info"].

Definition upload_finish_request (payload : dict) : Request :=
  {| endpoint := "media/upload_finish/?video=1"; method := POST; headers := None;
     query := None; data := DataDict payload; signed := false |}.

Definition _finish_video_upload (obj : PostFeedVideo) : M State unit :=
  let as_dict := video_to_dict E obj in
  let* as_dict := lift (remove_from_dict as_dict finish_removed) in
  let* _ := _request (upload_finish_request as_dict) in
  ret tt.

Definition _configure_video (obj : PostFeedVideo) : M State unit :=
  let as_dict := video_to_dict E obj in
  let* as_dict := lift (remove_from_dict as_dict configure_removed) in
  let* _ := _request (upload_finish_request as_dict) in
  ret tt.

Definition post_video (obj : PostFeedVideo) : M State unit :=
  let* headers := _upload_video_in_chunks obj in
  let* _ := _upload_video_thumbnail obj headers in
  let* _ := _finish_video_upload obj in
  _configure_video obj.

End WithEnv.

(** ** The requests of a run, by name *)

Section Requests.

Context (E : Env).

(** The image upload that [_upload_video_thumbnail] delegates to
    [_upload_image], when the method starts at draw [n] and the thumbnail
    file holds [f]. *)
Definition thumbnail_upload_request (obj : PostFeedVideo) (n : nat) (f : list Byte.byte)
  : Request :=
  upload_image_request E
    (upload_image_headers E
       (PStr (uuid4 E (S n)))
       (PStr (py_str E (PInt (Z.of_nat (List.length f)))))
       (PStr (uuid4 E n))
       (PStr ("image/" +:+ get_image_type (thumbnail_path obj)))
       (session_id E)
       (PStr (time_str E (S (S n))))
       (Some 0%Z))
    f.

(** The query of the location search for [obj], when the method starts at
    draw [n]. *)
Definition location_query (obj : Location) (n : nat) : dict :=
  if py_is_none (lat obj) || py_is_none (lng obj) then
    py_dict [("search_query", name obj); ("rankToken", gen_uuid E n)]
  else if py_truthy (name obj) then
    py_dict [("latitude", lat obj); ("longitude", lng obj); ("search_query", name obj)]
  else
    py_dict [("latitude", lat obj); ("longitude", lng obj)].

Definition location_search_request (obj : Location) (n : nat) : Request :=
  {| endpoint := "location_search"; method := GET; headers := None;
     query := Some (location_query obj n); data := NoData; signed := false |}.

(** The requests of the Transfer phase for [chunks]: for each chunk, in order,
    a GET and then a POST to the same fresh entity, the POST carrying the
    chunk, the headers the provider returned to the GET and the offset
    reached so far. [pre] is the trace before the phase, [n] the draw and
    [offset] the offset at which it starts. *)
Fixpoint transfer_pairs (headers : dict) (pre : list Request) (n : nat) (offset : Z)
    (chunks : list (list Byte.byte)) (reqs : list Request) : Prop :=
  match chunks, reqs with
  | [], [] => True
  | chunk :: rest, g :: p :: reqs' =>
      g = transfer_get_request headers (uuid4 E n)
      /\ (exists resp_headers,
            transport E pre g = Ok {| json := Ok (PDict resp_headers) |}
            /\ p = transfer_post_request E headers (uuid4 E n) resp_headers offset chunk)
      /\ transfer_pairs headers (pre ++ [g; p]) (S n)
                        (offset + Z.of_nat (List.length chunk)) rest reqs'
  | _, _ => False
  end.

(** The part of [post_post] before the configure call: serialization, the
    device descriptor, the image upload and the location; the result is the
    configure payload. *)
Definition post_post_upload (quality : option Z) : M PostRun dict :=
  let* obj := get_obj in
  let as_dict := post_to_dict E obj in
  let* _ :=
    (match device obj with
     | None =>
         let* sdk := lift (py_int E (android_sdk_version (device_profile E))) in
         set_obj {| device := Some {| dev_manufacturer := manufacturer (device_profile E);
                                      dev_model := model (device_profile E);
                                      dev_android_sdk_version := sdk;
                                      dev_android_release := android_release (device_profile E) |};
                    location := location obj;
                    source_type := source_type obj;
                    upload_id := upload_id obj |}
     | Some _ => ret tt
     end) in
  let* (image_path, as_dict) := lift (dict_pop "image_path" as_dict) in
  let* (x_fb_waterfall_id, as_dict) := lift (dict_pop "x_fb_waterfall_id" as_dict) in
  let* (entity_length, as_dict) := lift (dict_pop "entity_length" as_dict) in
  let* (entity_name, as_dict) := lift (dict_pop "entity_name" as_dict) in
  let* (entity_type, as_dict) := lift (dict_pop "entity_type" as_dict) in
  let* _ := in_world (_upload_image E image_path x_fb_waterfall_id entity_length
                                    entity_name entity_type (session_id E)
                                    (upload_id obj) quality) in
  let* obj := get_obj in
  match location obj with
  | Some loc =>
      let* loc :=
        (if negb (py_truthy (facebook_places_id loc)) then
           let* places_id := in_world (_request_fb_places_id E loc) in
           let loc' := {| lat := lat loc; lng := lng loc; name := name loc;
                          facebook_places_id := PStr places_id;
                          other_attrs := other_attrs loc |} in
           let* _ := set_obj {| device := device obj; location := Some loc';
                                source_type := source_type obj;
                                upload_id := upload_id obj |} in
           ret loc'
         else ret loc) in
      ret (<["location" := PStr (json_dumps E (PDict (Location_dict loc)))]> as_dict)
  | None => ret as_dict
  end.

(** The configure call of [post_post], for a payload. *)
Definition configure_request (endpoint : string) (payload : dict) : Request :=
  {| endpoint := endpoint; method := POST; headers := Some (retry_context_headers E);
     query := None; data := DataDict payload; signed := true |}.

End Requests.

(** A provider that answers every call with a JSON object holding a stream
    id. *)
Definition answers_all (E : Env) : Prop :=
  forall t r, exists d,
    transport E t r = Ok {| json := Ok (PDict d) |} /\ is_Some (d !! "stream_id").

(** ** Concrete inputs *)

(** Small environments and objects on which the methods are run below. *)

Definition ok_response (fields : list (string * pyval)) : outcome Response :=
  Ok {| json := Ok (PDict (py_dict fields)) |}.

(** A file system with a 1500-byte video and one-byte images. *)
Definition sample_files (p : pyval) : outcome (list Byte.byte) :=
  match p with
  | PStr "video.mp4" => Ok (repeat Byte.x00 1500)
  | PStr "thumb.jpg" | PStr "thumb.png" | PStr "photo.jpg" => Ok [Byte.x01]
  | PStr _ => Raise (OSError 2)
  | _ => Raise TypeError
  end.

(** The serialized fields of a video post. *)
Definition sample_video_dict : dict :=
  py_dict [("path", PStr "video.mp4"); ("thumbnail_path", PStr "thumb.jpg");
           ("creation_logger_session_id", PStr "session");
           ("multi_sharing", PStr "1"); ("audio_muted", PBool false);
           ("height", PInt 720); ("width", PInt 1280);
           ("quality_info", PStr "{}"); ("pdg_hash_info", PStr "{}");
           ("caption", PStr "hello"); ("upload_id", PStr "77")].

(** The serialized fields of an image post. *)
Definition sample_post_dict : dict :=
  py_dict [("image_path", PStr "photo.jpg"); ("x_fb_waterfall_id", PStr "w");
           ("entity_length", PInt 1); ("entity_name", PStr "e1");
           ("entity_type", PStr "image/jpeg"); ("caption", PStr "hello")].

Definition sample_env (t : list Request -> Request -> outcome Response) : Env :=
  {| transport := t;
     open_rb := sample_files;
     uuid4 := fun n => "uuid-" +:+ str_of_int (Z.of_nat n);
     gen_uuid := fun n => PStr ("rank-" +:+ str_of_int (Z.of_nat n));
     time_str := fun _ => "1600000000.0";
     session_id := PStr "session";
     device_profile := {| manufacturer := PStr "acme"; model := PStr "one";
                          android_sdk_version := PStr "29";
                          android_release := PStr "10" |};
     json_dumps := fun _ => "json";
     str_other := fun _ => "repr";
     int_other := fun _ => Raise (ValueError "invalid literal for int()");
     Feed_value := 4; Story_value := 3;
     post_to_dict := fun _ => sample_post_dict;
     video_to_dict := fun _ => sample_video_dict |}.

(** A provider that answers every call with a stream id, status ok and one
    venue. *)
Definition friendly_response : Response :=
  {| json := Ok (PDict (py_dict [
       ("stream_id", PStr "A"); ("status", PStr "ok");
       ("venues", PList [PDict (py_dict [("external_id", PStr "123")])])])) |}.

Definition friendly (_ : list Request) (_ : Request) : outcome Response :=
  Ok friendly_response.

(** An image post for the feed, without device or location. *)
Definition sample_post : Post :=
  {| device := None; location := None; source_type := 4; upload_id := PStr "77" |}.

Definition sample_video : PostFeedVideo :=
  {| path := PStr "video.mp4"; thumbnail_path := StrPath "thumb.jpg";
     height := PInt 720; width := PInt 1280; video_length := "1,234.5";
     video_upload_id := PStr "77" |}.

Definition initial : State := {| trace := []; draws := 0 |}.




(** A place known by name only. *)
Definition sample_place : Location :=
  {| lat := PNone; lng := PNone; name := PStr "Utrecht";
     facebook_places_id := PNone; other_attrs := ∅ |}.

(** A place with a latitude (52.0) and nothing else. *)
Definition sample_half_place : Location :=
  {| lat := PFloat (S754_finite false 13 2); lng := PNone; name := PNone;
     facebook_places_id := PNone; other_attrs := ∅ |}.

(** A provider that finds no venue. *)
Definition no_venues (_ : list Request) (_ : Request) : outcome Response :=
  ok_response [("status", PStr "ok"); ("venues", PList [])].

(** A provider whose answer to a Transfer GET carries a stream id of its own. *)
Definition restreaming (_ : list Request) (r : Request) : outcome Response :=
  match method r with
  | GET => ok_response [("stream_id", PStr "B")]
  | POST => ok_response [("stream_id", PStr "A")]
  end.

(** ** The rest of helpers.py and of PostMixin *)

(** *** helpers.get_creation_date *)

(** [os.stat_result], by the attributes the code reads; a platform without
    birth times has no [st_birthtime] attribute. *)
Record stat_result : Type := mkStat {
  st_birthtime : option spec_float;
  st_mtime : spec_float
}.

(** [datetime.datetime], by the fields the code reads. *)
Record datetime : Type := mkDatetime {
  year : Z; month : Z; day : Z; hour : Z; minute : Z; second : Z
}.

(** The operating-system side of [get_creation_date]. *)
Record Host : Type := mkHost {
  (** [platform.system()] *)
  platform_system : string;
  (** [os.path.getctime] *)
  getctime : string -> outcome spec_float;
  (** [os.stat] *)
  os_stat : string -> outcome stat_result;
  (** [datetime.datetime.fromtimestamp] *)
  fromtimestamp : spec_float -> outcome datetime
}.

(** The timestamp [get_creation_date] settles on. *)
Definition creation_timestamp (H : Host) (path : string) : outcome spec_float :=
  if String.eqb (platform_system H) "Windows" then getctime H path
  else
    match os_stat H path with
    | Ok stat =>
        try_except
          (match st_birthtime stat with
           | Some t => Ok t
           | None => Raise AttributeError
           end)
          is_AttributeError (Ok (st_mtime stat))
    | Raise e => Raise e
    end.

(** [f"{dt.year}{dt.month}{dt.day}T{dt.hour}{dt.minute}{dt.second}.000Z"] *)
Definition format_creation_date (dt : datetime) : string :=
  str_of_int (year dt) +:+ str_of_int (month dt) +:+ str_of_int (day dt) +:+ "T"
  +:+ str_of_int (hour dt) +:+ str_of_int (minute dt) +:+ str_of_int (second dt)
  +:+ ".000Z".

Definition get_creation_date (H : Host) (path : string) : outcome string :=
  match creation_timestamp H path with
  | Ok timestamp =>
      match fromtimestamp H timestamp with
      | Ok dt => Ok (format_creation_date dt)
      | Raise e => Raise e
      end
  | Raise e => Raise e
  end.

(** *** helpers.remove_from_dict, on the caller's dict *)

(** [remove_from_dict] updates [input_dict] in place: here the dict object is
    the state, so that what is left in it when a [pop] raises is visible. *)
Fixpoint remove_from_dict_inplace (to_remove : list string) : M dict unit :=
  match to_remove with
  | [] => ret tt
  | k :: ks =>
      fun input_dict =>
        match try_except
                (match dict_pop k input_dict with
                 | Ok (_, d) => Ok d
                 | Raise e => Raise e
                 end)
                is_AttributeError (Ok input_dict) with
        | Ok d => remove_from_dict_inplace ks d
        | Raise e => (Raise e, input_dict)
        end
  end.

(** *** Objects *)

(** An instance of a plain class: the attributes of the class and the
    instance's [__dict__]. *)
Record PyObject : Type := mkObject { class_attrs : dict; inst_attrs : dict }.

(** [obj.k] *)
Definition py_getattr (o : PyObject) (k : string) : outcome pyval :=
  match inst_attrs o !! k with
  | Some v => Ok v
  | None => match class_attrs o !! k with
            | Some v => Ok v
            | None => Raise AttributeError
            end
  end.

(** [delattr(obj, k)] *)
Definition py_delattr (o : PyObject) (k : string) : outcome PyObject :=
  match inst_attrs o !! k with
  | Some _ => Ok {| class_attrs := class_attrs o; inst_attrs := delete k (inst_attrs o) |}
  | None => Raise AttributeError
  end.

(** [d.get(k)], for a decoded JSON value. *)
Definition py_get (v : pyval) (k : string) : outcome pyval :=
  match v with
  | PDict d => Ok (default PNone (d !! k))
  | _ => Raise AttributeError
  end.

(** A method run on an object that it updates in place. *)
Record Run (O : Type) : Type := mkRun { run_world : State; run_obj : O }.
Arguments mkRun {O} _ _.
Arguments run_world {O} _.
Arguments run_obj {O} _.

Definition with_world {O A} (m : M State A) : M (Run O) A :=
  fun r => let '(o, w) := m (run_world r) in (o, {| run_world := w; run_obj := run_obj r |}).

Definition this {O} : M (Run O) O := fun r => (Ok (run_obj r), r).

Definition update {O} (o : O) : M (Run O) unit :=
  fun r => (Ok tt, {| run_world := run_world r; run_obj := o |}).

(** [structs.post.RetrieveByUser], by the attributes the code reads. *)
Record RetrieveByUser : Type := mkRetrieveByUser {
  page : Z;
  max_id : pyval;
  user_id : pyval
}.

Section Actions.

Context (E : Env).

(** *** PostMixin._post_act and the actions built on it *)

Definition post_act_request (media_id action : pyval) (payload : dict) : Request :=
  {| endpoint := "media/" +:+ py_str E media_id +:+ "/" +:+ py_str E action +:+ "/";
     method := POST; headers := None; query := None;
     data := DataDict payload; signed := true |}.

Definition _post_act : M (Run PyObject) Response :=
  let* obj := this in
  let* feed_position := lift (py_getattr obj "feed_position") in
  let* _ :=
    (if py_is_none feed_position then
       let* obj' := lift (py_delattr obj "feed_position") in
       update obj'
     else ret tt) in
  let* obj := this in
  let* media_id := lift (py_getattr obj "media_id") in
  let* action := lift (py_getattr obj "action") in
  with_world (_request E (post_act_request media_id action (inst_attrs obj))).

Definition post_like : M (Run PyObject) Response := _post_act.
Definition post_unlike : M (Run PyObject) Response := _post_act.
Definition post_save : M (Run PyObject) Response := _post_act.
Definition post_comment : M (Run PyObject) Response := _post_act.
Definition post_update_caption : M (Run PyObject) Response := _post_act.

(** *** PostMixin.post_retrieve_by_user *)

(** [obj.to_dict()] of a [RetrieveByUser]. *)
Context (retrieve_to_dict : RetrieveByUser -> dict).

(** The method returns [(obj, False)] or [(obj, items)]; [obj] is the object
    of the run, so the result here is the second component. *)
Definition retrieve_request (user_id : pyval) (query : dict) : Request :=
  {| endpoint := "feed/user/" +:+ py_str E user_id +:+ "/"; method := GET;
     headers := None; query := Some query; data := NoData; signed := false |}.

Definition post_retrieve_by_user : M (Run RetrieveByUser) pyval :=
  let* obj := this in
  let as_dict := retrieve_to_dict obj in
  if (0 <? page obj)%Z && py_is_none (max_id obj) then ret (PBool false)
  else
    let* (_, as_dict) := lift (dict_pop "max_id" as_dict) in
    let* (_, as_dict) := lift (dict_pop "user_id" as_dict) in
    let* resp := with_world (_request E (retrieve_request (user_id obj) as_dict)) in
    let* resp_as_json := lift (json resp) in
    let* next_max_id := lift (py_get resp_as_json "next_max_id") in
    let* _ := update {| page := page obj; max_id := next_max_id; user_id := user_id obj |} in
    let* _ := update {| page := page obj + 1; max_id := next_max_id;
                        user_id := user_id obj |} in
    let* items := lift (py_getitem resp_as_json "items") in
    ret items.

End Actions.

(** *** What a computation sends *)

(** Every run of [m] adds to the trace only requests that satisfy [P]; [w]
    finds the trace in the state of [m]. *)
Definition issues {S A : Type} (w : S -> State) (P : Request -> Prop) (m : M S A) : Prop :=
  forall s, exists new, trace (w (m s).2) = trace (w s) ++ new /\ Forall P new.

(** The three kinds of endpoint of the video pipeline. *)
Definition video_endpoint (r : Request) : Prop :=
  (exists entity_name, endpoint r = "rupload_igvideo/" +:+ entity_name)
  \/ (exists entity_name,
        endpoint r = "https://i.instagram.com/rupload_igphoto/" +:+ entity_name)
  \/ endpoint r = "media/upload_finish/?video=1".

(** The keys that [post_post] pops from the serialized post, in order. *)
Definition popped_keys : list string :=
  ["image_path"; "x_fb_waterfall_id"; "entity_length"; "entity_name"; "entity_type"].

(** An image post for the feed at a place known by name only. *)
Definition sample_post_at_place : Post :=
  {| device := None; location := Some sample_place; source_type := 4;
     upload_id := PStr "77" |}.

(** A place with neither coordinates nor name. *)
Definition sample_nowhere : Location :=
  {| lat := PNone; lng := PNone; name := PNone;
     facebook_places_id := PNone; other_attrs := ∅ |}.

Definition sample_post_nowhere : Post :=
  {| device := None; location := Some sample_nowhere; source_type := 4;
     upload_id := PStr "77" |}.

(** The sample environment with a file system on which nothing can be
    opened. *)
Definition unreadable_env : Env :=
  {| transport := friendly;
     open_rb := fun _ => Raise (OSError 2);
     uuid4 := uuid4 (sample_env friendly);
     gen_uuid := gen_uuid (sample_env friendly);
     time_str := time_str (sample_env friendly);
     session_id := session_id (sample_env friendly);
     device_profile := device_profile (sample_env friendly);
     json_dumps := json_dumps (sample_env friendly);
     str_other := str_other (sample_env friendly);
     int_other := int_other (sample_env friendly);
     Feed_value := 4; Story_value := 3;
     post_to_dict := fun _ => sample_post_dict;
     video_to_dict := fun _ => sample_video_dict |}.

(** A like of media 42, without a feed position. *)
Definition sample_like : PyObject :=
  {| class_attrs := ∅;
     inst_attrs := py_dict [("media_id", PStr "42"); ("action", PStr "like");
                            ("feed_position", PNone); ("radio_type", PStr "wifi-none")] |}.

(** The first page of the posts of user 7. *)
Definition sample_retrieve : RetrieveByUser :=
  {| page := 0; max_id := PNone; user_id := PStr "7" |}.

Definition sample_retrieve_to_dict (obj : RetrieveByUser) : dict :=
  py_dict [("max_id", max_id obj); ("user_id", user_id obj);
           ("exclude_comment", PBool true)].

(** A provider whose feed has one page. *)
Definition one_page (_ : list Request) (_ : Request) : outcome Response :=
  ok_response [("items", PList [PStr "post"]); ("status", PStr "ok")].

(** A provider whose answer has a cursor but no items. *)
Definition no_items (_ : list Request) (_ : Request) : outcome Response :=
  ok_response [("next_max_id", PStr "cursor"); ("status", PStr "fail")].

(** The sample environment with a file system on which every file is
    empty. *)
Definition blank_env : Env :=
  {| transport := friendly;
     open_rb := fun _ => Ok [];
     uuid4 := uuid4 (sample_env friendly);
     gen_uuid := gen_uuid (sample_env friendly);
     time_str := time_str (sample_env friendly);
     session_id := session_id (sample_env friendly);
     device_profile := device_profile (sample_env friendly);
     json_dumps := json_dumps (sample_env friendly);
     str_other := str_other (sample_env friendly);
     int_other := int_other (sample_env friendly);
     Feed_value := 4; Story_value := 3;
     post_to_dict := fun _ => sample_post_dict;
     video_to_dict := fun _ => sample_video_dict |}.

(** Only the configure calls of an image publish are signed. *)
Definition signed_iff_configure (r : Request) : Prop :=
  signed r = true
  <-> (endpoint r = "media/configure/" \/ endpoint r = "media/configure_to_story/").

(** A host without birth times, on which two files were created on
    11 January and on 1 November 2021, both at 05:06:07. *)
Definition sample_host : Host :=
  {| platform_system := "Linux";
     getctime := fun _ => Raise (OSError 2);
     os_stat := fun p =>
       if String.eqb p "january.jpg"
       then Ok {| st_birthtime := None; st_mtime := S754_finite false 1 0 |}
       else if String.eqb p "november.jpg"
       then Ok {| st_birthtime := None; st_mtime := S754_finite false 2 0 |}
       else Raise (OSError 2);
     fromtimestamp := fun t =>
       match t with
       | S754_finite false 1 0 =>
           Ok {| year := 2021; month := 1; day := 11;
                 hour := 5; minute := 6; second := 7 |}
       | _ =>
           Ok {| year := 2021; month := 11; day := 1;
                 hour := 5; minute := 6; second := 7 |}
       end |}.

(** ** Properties *)

(** Case analysis on every result a run depends on. *)
Ltac outcome_cases :=
  repeat (cbn [json fst snd trace draws];
          match goal with
          | |- context [match ?o with Ok _ => _ | Raise _ => _ end] => destruct o
          | |- context [if ?b then _ else _] => destruct b
          end).

(** *** Strings and numerals *)

Lemma str_replace_delete (old : ascii) (s : string) :
  list_ascii_of_string (str_replace old "" s)
  = filter (fun c => c <> old) (list_ascii_of_string s).
Proof.
  induction s as [|c s IH]; [reflexivity|].
  cbn [str_replace list_ascii_of_string].
  destruct (Ascii.eqb_spec c old) as [->|Hne].
  - rewrite filter_cons_False by (intros H; by apply H). exact IH.
  - rewrite filter_cons_True by done. cbn. by rewrite IH.
Qed.

Lemma str_of_int_parse (z : Z) : parse_decimal (str_of_int z) = Some z.
Proof.
  unfold parse_decimal, str_of_int.
  rewrite NilZero.isi.
  - cbn. by rewrite DecimalZ.of_to.
  - destruct z; cbn; try discriminate.
    intros [= H]. by apply DecimalPos.Unsigned.to_uint_nonnil in H.
  - destruct z; cbn; try discriminate.
    intros [= H]. by apply DecimalPos.Unsigned.to_uint_nonnil in H.
Qed.

(** C7: the duration sent as [upload_media_duration_ms] is the duration
    string with every [.] and every [,] deleted and all other characters kept,
    in order; so ["1,234.5"] becomes ["12345"] and ["10"] stays ["10"]. *)
Theorem duration_ms_strips_separators (length : string) :
  list_ascii_of_string (duration_ms length)
  = filter (fun c => c <> ","%char /\ c <> "."%char) (list_ascii_of_string length)
  /\ duration_ms "1,234.5" = "12345"
  /\ duration_ms "10" = "10"
  /\ forall E obj h w,
       video_rupload_dict E obj h w !! "upload_media_duration_ms"
       = Some (PStr (duration_ms (video_length obj))).
Proof.
  split; [|split; [reflexivity|split; [reflexivity|]]].
  - unfold duration_ms. rewrite !str_replace_delete.
    apply list_filter_filter.
  - reflexivity.
Qed.

(** *** helpers.py *)

(** C8: the upload parameters carry a retry context whose three counters are
    zero and a compression descriptor [moz] / [3.1.m] whose quality is the
    decimal numeral of the given quality; they are a function of the
    arguments alone, and the numeral reads back as the same integer. *)
Theorem build_default_rupload_params_spec (E : Env) (upload_id : pyval) (quality : Z) :
  let params := build_default_rupload_params E upload_id quality in
  params !! "retry_context"
    = Some (PStr (json_dumps E (PDict {[ "num_reupload" := PInt 0;
                                         "num_step_auto_retry" := PInt 0;
                                         "num_step_manual_retry" := PInt 0 ]})))
  /\ params !! "image_compression"
    = Some (PStr (json_dumps E (PDict {[ "lib_name" := PStr "moz";
                                         "lib_version" := PStr "3.1.m";
                                         "quality" := PStr (str_of_int quality) ]})))
  /\ py_int E (PStr (str_of_int quality)) = Ok quality.
Proof.
  cbn zeta. split; [|split].
  - reflexivity.
  - reflexivity.
  - cbn. by rewrite str_of_int_parse.
Qed.

Lemma remove_from_dict_cons (d : dict) (k : string) (ks : list string) :
  remove_from_dict d (k :: ks)
  = match d !! k with
    | Some _ => remove_from_dict (delete k d) ks
    | None => Raise (KeyError k)
    end.
Proof. cbn. unfold dict_pop. by destruct (d !! k). Qed.

Lemma remove_from_dict_Ok_inv (ks : list string) (d d' : dict) :
  remove_from_dict d ks = Ok d' ->
  NoDup ks
  /\ (forall k, k ∈ ks -> is_Some (d !! k))
  /\ (forall k, d' !! k = if decide (k ∈ ks) then None else d !! k).
Proof.
  revert d. induction ks as [|k ks IH]; intros d.
  - intros [= ->]. split; [constructor|]. split; [intros k Hk; inversion Hk|].
    intros k. by rewrite decide_False by (intros Hk; inversion Hk).
  - rewrite remove_from_dict_cons. destruct (d !! k) as [v|] eqn:Hk; [|done].
    intros H. apply IH in H as (Hnd & Hin & Hlook).
    assert (k ∉ ks) as Hfresh.
    { intros Hmem. destruct (Hin k Hmem) as [x Hx]. by rewrite lookup_delete_eq in Hx. }
    split; [by constructor|]. split.
    + intros k' [->|Hk']%elem_of_cons; [by eexists|].
      destruct (Hin k' Hk') as [x Hx].
      destruct (decide (k = k')) as [->|Hne]; [by rewrite lookup_delete_eq in Hx|].
      rewrite lookup_delete_ne in Hx by done. by eexists.
    + intros k'. rewrite Hlook.
      destruct (decide (k' ∈ ks)) as [Hk'|Hk'].
      * by rewrite decide_True by (by right).
      * destruct (decide (k = k')) as [->|Hne].
        -- rewrite lookup_delete_eq. by rewrite decide_True by (by left).
        -- rewrite lookup_delete_ne by done.
           rewrite decide_False; [done|]. by intros [->|?]%elem_of_cons.
Qed.

Lemma remove_from_dict_present (ks : list string) (d : dict) :
  NoDup ks -> (forall k, k ∈ ks -> is_Some (d !! k)) ->
  exists d', remove_from_dict d ks = Ok d'.
Proof.
  revert d. induction ks as [|k ks IH]; intros d Hnd Hin; [by eexists|].
  rewrite remove_from_dict_cons.
  destruct (Hin k) as [v ->]; [by left|].
  apply NoDup_cons in Hnd as [Hfresh Hnd].
  apply IH; [done|]. intros k' Hk'.
  rewrite lookup_delete_ne by (by intros ->). apply Hin. by right.
Qed.

Lemma remove_from_dict_Raise (ks : list string) (d : dict) (e : exn) :
  remove_from_dict d ks = Raise e -> exists k, k ∈ ks /\ e = KeyError k.
Proof.
  revert d. induction ks as [|k ks IH]; intros d; [done|].
  rewrite remove_from_dict_cons. destruct (d !! k).
  - intros (k' & Hk' & ->)%IH. exists k'. split; [by right|done].
  - intros [= <-]. exists k. split; [by left|done].
Qed.

(** C9: when a key of the removal list is absent from the dict,
    [remove_from_dict] raises [KeyError] (for a key of the list) and so does
    not return; the handler for [AttributeError] does not skip the key. *)
Theorem remove_from_dict_missing_key (d : dict) (ks : list string) (k : string) :
  k ∈ ks -> d !! k = None ->
  (exists k', k' ∈ ks /\ remove_from_dict d ks = Raise (KeyError k'))
  /\ (forall d', remove_from_dict d ks <> Ok d').
Proof.
  intros Hk Hnone.
  destruct (remove_from_dict d ks) as [d'|e] eqn:Hrun.
  - apply remove_from_dict_Ok_inv in Hrun as (_ & Hin & _).
    destruct (Hin k Hk) as [v Hv]. congruence.
  - apply remove_from_dict_Raise in Hrun as (k' & Hk' & ->).
    split; [by exists k'|done].
Qed.

Lemma remove_from_dict_missing_key_witness :
  (exists k', k' ∈ ["a"; "b"]
              /\ remove_from_dict {[ "a" := PInt 1 ]} ["a"; "b"] = Raise (KeyError k'))
  /\ (forall d', remove_from_dict {[ "a" := PInt 1 ]} ["a"; "b"] <> Ok d').
Proof.
  apply (remove_from_dict_missing_key {[ "a" := PInt 1 ]} ["a"; "b"] "b").
  - apply (bool_decide_unpack _). vm_compute. reflexivity.
  - reflexivity.
Defined.

(** *** Finish and configure payloads *)

Lemma finish_video_upload_run (E : Env) (obj : PostFeedVideo) (st : State) (payload : dict) :
  remove_from_dict (video_to_dict E obj) finish_removed = Ok payload ->
  _finish_video_upload E obj st
  = (match transport E (trace st) (upload_finish_request payload) with
     | Ok _ => Ok tt
     | Raise e => Raise e
     end,
     {| trace := trace st ++ [upload_finish_request payload]; draws := draws st |}).
Proof.
  intros H. unfold _finish_video_upload, bind, lift, _request, ret. rewrite H.
  by destruct (transport E _ _).
Qed.

Lemma configure_video_run (E : Env) (obj : PostFeedVideo) (st : State) (payload : dict) :
  remove_from_dict (video_to_dict E obj) configure_removed = Ok payload ->
  _configure_video E obj st
  = (match transport E (trace st) (upload_finish_request payload) with
     | Ok _ => Ok tt
     | Raise e => Raise e
     end,
     {| trace := trace st ++ [upload_finish_request payload]; draws := draws st |}).
Proof.
  intros H. unfold _configure_video, bind, lift, _request, ret. rewrite H.
  by destruct (transport E _ _).
Qed.

Lemma finish_removed_NoDup : NoDup finish_removed.
Proof. apply (bool_decide_unpack _). by vm_compute. Qed.

Lemma configure_removed_NoDup : NoDup configure_removed.
Proof. apply (bool_decide_unpack _). by vm_compute. Qed.

(** C1, as the code has it: when the serialized spec has the fields of both
    removal lists, each step sends the serialization without the fields of
    its own list and with every other field unchanged. Both lists contain
    [path], [thumbnail_path], [height], [width], [quality_info] and
    [pdg_hash_info]; the finish list also has [creation_logger_session_id]
    and [multi_sharing], so the finish payload keeps [audio_muted]; the
    configure list also has [audio_muted], so the configure payload drops it
    and keeps [creation_logger_session_id] and [multi_sharing]. *)
Theorem video_payloads (E : Env) (obj : PostFeedVideo) (st : State) :
  (forall k, k ∈ finish_removed -> is_Some (video_to_dict E obj !! k)) ->
  (forall k, k ∈ configure_removed -> is_Some (video_to_dict E obj !! k)) ->
  exists fin conf : dict,
    trace (_finish_video_upload E obj st).2 = trace st ++ [upload_finish_request fin]
    /\ trace (_configure_video E obj st).2 = trace st ++ [upload_finish_request conf]
    /\ (forall k, fin !! k = if decide (k ∈ finish_removed) then None
                             else video_to_dict E obj !! k)
    /\ (forall k, conf !! k = if decide (k ∈ configure_removed) then None
                              else video_to_dict E obj !! k)
    /\ (forall k, k ∈ ["path"; "thumbnail_path"; "height"; "width";
                       "quality_info"; "pdg_hash_info"] ->
                  fin !! k = None /\ conf !! k = None)
    /\ fin !! "creation_logger_session_id" = None
    /\ fin !! "multi_sharing" = None
    /\ fin !! "audio_muted" = video_to_dict E obj !! "audio_muted"
    /\ conf !! "audio_muted" = None
    /\ conf !! "creation_logger_session_id"
       = video_to_dict E obj !! "creation_logger_session_id"
    /\ conf !! "multi_sharing" = video_to_dict E obj !! "multi_sharing".
Proof.
  intros Hfin Hconf.
  destruct (remove_from_dict_present _ _ finish_removed_NoDup Hfin) as [fin Hf].
  destruct (remove_from_dict_present _ _ configure_removed_NoDup Hconf) as [conf Hc].
  exists fin, conf.
  rewrite (finish_video_upload_run _ _ _ _ Hf), (configure_video_run _ _ _ _ Hc).
  apply remove_from_dict_Ok_inv in Hf as (_ & _ & Hf).
  apply remove_from_dict_Ok_inv in Hc as (_ & _ & Hc).
  split; [done|]. split; [done|]. split; [done|]. split; [done|].
  split.
  { intros k Hk. rewrite Hf, Hc.
    repeat (apply elem_of_cons in Hk as [->|Hk]); try (by inversion Hk);
      by vm_compute. }
  rewrite !Hf, !Hc. by repeat split.
Qed.

Lemma video_payloads_witness :
  exists fin conf : dict,
    trace (_finish_video_upload (sample_env friendly) sample_video initial).2
      = trace initial ++ [upload_finish_request fin]
    /\ trace (_configure_video (sample_env friendly) sample_video initial).2
      = trace initial ++ [upload_finish_request conf]
    /\ (forall k, fin !! k = if decide (k ∈ finish_removed) then None
                             else sample_video_dict !! k)
    /\ (forall k, conf !! k = if decide (k ∈ configure_removed) then None
                              else sample_video_dict !! k)
    /\ (forall k, k ∈ ["path"; "thumbnail_path"; "height"; "width";
                       "quality_info"; "pdg_hash_info"] ->
                  fin !! k = None /\ conf !! k = None)
    /\ fin !! "creation_logger_session_id" = None
    /\ fin !! "multi_sharing" = None
    /\ fin !! "audio_muted" = sample_video_dict !! "audio_muted"
    /\ conf !! "audio_muted" = None
    /\ conf !! "creation_logger_session_id"
       = sample_video_dict !! "creation_logger_session_id"
    /\ conf !! "multi_sharing" = sample_video_dict !! "multi_sharing".
Proof.
  apply (video_payloads (sample_env friendly) sample_video initial).
  - intros k Hk.
    repeat (apply elem_of_cons in Hk as [->|Hk]); try (by inversion Hk);
      eexists; vm_compute; reflexivity.
  - intros k Hk.
    repeat (apply elem_of_cons in Hk as [->|Hk]); try (by inversion Hk);
      eexists; vm_compute; reflexivity.
Defined.

(** C1 as stated fails on the sample video: the payload of the finish step
    still has [audio_muted], and the payload of the configure step has lost
    it while it still has [creation_logger_session_id] and [multi_sharing]. *)
Lemma video_payloads_counterexample :
  exists fin conf : dict,
    _finish_video_upload (sample_env friendly) sample_video initial
      = (Ok tt, {| trace := [upload_finish_request fin]; draws := 0 |})
    /\ _configure_video (sample_env friendly) sample_video initial
      = (Ok tt, {| trace := [upload_finish_request conf]; draws := 0 |})
    /\ fin !! "audio_muted" = Some (PBool false)
    /\ conf !! "audio_muted" = None
    /\ conf !! "creation_logger_session_id" = Some (PStr "session")
    /\ conf !! "multi_sharing" = Some (PStr "1").
Proof.
  eexists _, _. split; [reflexivity|]. split; [reflexivity|].
  by vm_compute.
Qed.

(** *** Image upload *)

Lemma upload_image_run (E : Env) (path waterfall_id entity_length entity_name entity_type
    session_id upload_id : pyval) (quality : option Z) (st : State) :
  _upload_image E path waterfall_id entity_length entity_name entity_type
                session_id upload_id quality st
  = match open_rb E path with
    | Ok content =>
        let req := upload_image_request E
                     (upload_image_headers E waterfall_id entity_length entity_name
                        entity_type session_id upload_id quality) content in
        (transport E (trace st) req, {| trace := trace st ++ [req]; draws := draws st |})
    | Raise e => (Raise e, st)
    end.
Proof.
  unfold _upload_image, bind, lift. by destruct (open_rb E path).
Qed.

Lemma quality_or_falsy (quality : option Z) (default : Z) :
  quality = None \/ quality = Some 0%Z -> quality_or quality default = default.
Proof. by intros [-> | ->]. Qed.

Lemma quality_or_truthy (q default : Z) : q <> 0%Z -> quality_or (Some q) default = q.
Proof. intros Hq. cbn. by destruct (Z.eqb_spec q 0). Qed.

(** *** Image types *)

Lemma str_split_nonempty (sep : ascii) (s : string) : str_split sep s <> [].
Proof.
  destruct s as [|c s]; [done|]. cbn.
  destruct (Ascii.eqb c sep); [done|]. by destruct (str_split sep s).
Qed.

Lemma str_split_app (sep : ascii) (s t : string) :
  str_split sep (s +:+ String sep t) = str_split sep s ++ str_split sep t.
Proof.
  induction s as [|c s IH].
  - change ("" +:+ String sep t) with (String sep t).
    cbn [str_split app]. by rewrite Ascii.eqb_refl.
  - change (String c s +:+ String sep t) with (String c (s +:+ String sep t)).
    cbn [str_split]. rewrite IH.
    destruct (Ascii.eqb c sep); [done|].
    pose proof (str_split_nonempty sep s) as Hne.
    by destruct (str_split sep s).
Qed.

Lemma get_image_type_extension (stem ext : string) :
  str_split "." ext = [ext] ->
  get_image_type (StrPath (stem +:+ String "." ext)) = ext.
Proof.
  intros Hext. unfold get_image_type, list_last.
  rewrite str_split_app, Hext. apply last_last.
Qed.

(** *** Thumbnail attachment *)

(** Every run of [_upload_video_thumbnail], by cases. *)
Lemma upload_video_thumbnail_run (E : Env) (obj : PostFeedVideo) (hdrs : dict) (st : State) :
  _upload_video_thumbnail E obj hdrs st
  = match open_rb E (fspath (thumbnail_path obj)) with
    | Raise e => (Raise e, {| trace := trace st; draws := S (draws st) |})
    | Ok f =>
        if not_jpeg (get_image_type (thumbnail_path obj)) then
          (Raise (ValueError "Instagram only accepts jpg/jpeg images"),
           {| trace := trace st; draws := S (draws st) |})
        else
          let end_req := end_request (uuid4 E (draws st)) hdrs in
          match transport E (trace st) end_req with
          | Raise e =>
              (Raise e, {| trace := trace st ++ [end_req]; draws := S (S (draws st)) |})
          | Ok _ =>
              let img := thumbnail_upload_request E obj (draws st) f in
              (match transport E (trace st ++ [end_req]) img with
               | Ok _ => Ok tt
               | Raise e => Raise e
               end,
               {| trace := (trace st ++ [end_req]) ++ [img];
                  draws := S (S (S (draws st))) |})
          end
    end.
Proof.
  unfold _upload_video_thumbnail, bind, lift, draw, raise. cbn [trace draws].
  destruct (open_rb E (fspath (thumbnail_path obj))) as [f|e] eqn:Hopen; [|done].
  destruct (not_jpeg _); [done|].
  unfold _request at 1. cbn [trace draws].
  destruct (transport E (trace st) _) as [r|e]; [|done].
  rewrite upload_image_run, Hopen. cbn [trace draws].
  unfold thumbnail_upload_request, ret.
  by destruct (transport E (trace st ++ _) _).
Qed.

(** [get_image_type] of a [Path] is its suffix, which [pathlib] gives empty
    or with the leading dot; such a type is never [jpg] or [jpeg]. *)
Lemma get_image_type_Path (p : Path) :
  suffix p = "" \/ (exists ext, suffix p = String "." ext) ->
  not_jpeg (get_image_type (PathObj p)) = true.
Proof. by intros [Hp | [ext Hp]]; cbn; rewrite Hp. Qed.




(** Whatever the file system does, a thumbnail of another type leads to no
    request at all. *)
Lemma upload_video_thumbnail_rejected_silent
    (E : Env) (obj : PostFeedVideo) (hdrs : dict) (st : State) :
  not_jpeg (get_image_type (thumbnail_path obj)) = true ->
  exists e, _upload_video_thumbnail E obj hdrs st
            = (Raise e, {| trace := trace st; draws := S (draws st) |}).
Proof.
  intros Hbad. rewrite upload_video_thumbnail_run, Hbad.
  destruct (open_rb E _); by eexists.
Qed.

(** C10: a quality that is [None] or [0] is replaced by 70, so the upload
    parameters sent by [_upload_image] describe quality ["70"]; the thumbnail
    upload passes 0, so whenever [_upload_video_thumbnail] uploads the image
    its parameters describe quality ["70"]. *)
Theorem upload_image_default_quality (E : Env) :
  (forall path waterfall_id entity_length entity_name entity_type session_id upload_id
          quality st content,
      quality = None \/ quality = Some 0%Z ->
      open_rb E path = Ok content ->
      exists req h,
        (_upload_image E path waterfall_id entity_length entity_name entity_type
                       session_id upload_id quality st).2
        = {| trace := trace st ++ [req]; draws := draws st |}
        /\ headers req = Some h
        /\ h !! "x-instagram-rupload-params"
           = Some (PStr (json_dumps E (PDict (build_default_rupload_params E upload_id 70))))
        /\ build_default_rupload_params E upload_id 70 !! "image_compression"
           = Some (PStr (json_dumps E (PDict {[ "lib_name" := PStr "moz";
                                                "lib_version" := PStr "3.1.m";
                                                "quality" := PStr "70" ]}))))
  /\ (forall obj hdrs st,
        let run := _upload_video_thumbnail E obj hdrs st in
        trace run.2 = trace st
        \/ trace run.2 = trace st ++ [end_request (uuid4 E (draws st)) hdrs]
        \/ exists img h,
             trace run.2 = trace st ++ [end_request (uuid4 E (draws st)) hdrs; img]
             /\ headers img = Some h
             /\ h !! "x-instagram-rupload-params"
                = Some (PStr (json_dumps E (PDict (build_default_rupload_params E
                                 (PStr (time_str E (S (S (draws st))))) 70))))).
Proof.
  split.
  - intros path waterfall_id entity_length entity_name entity_type session_id upload_id
           quality st content Hq Hopen.
    rewrite upload_image_run, Hopen. cbn zeta.
    eexists _, _. split; [reflexivity|]. split; [reflexivity|].
    unfold upload_image_headers. rewrite (quality_or_falsy _ _ Hq).
    split; reflexivity.
  - intros obj hdrs st. cbn zeta. rewrite upload_video_thumbnail_run.
    destruct (open_rb E _) as [f|e]; [|by left].
    destruct (not_jpeg _); [by left|]. cbn zeta.
    destruct (transport E (trace st) _); [|by right; left].
    right; right. eexists _, _. cbn [snd trace]. rewrite <- app_assoc.
    split; [reflexivity|]. split; reflexivity.
Qed.

Lemma upload_image_default_quality_witness :
  exists req h,
    (_upload_image (sample_env friendly) (PStr "photo.jpg") (PStr "w") (PInt 1)
                   (PStr "e1") (PStr "image/jpeg") (PStr "session") (PStr "77")
                   (Some 0%Z) initial).2
    = {| trace := trace initial ++ [req]; draws := draws initial |}
    /\ headers req = Some h
    /\ h !! "x-instagram-rupload-params"
       = Some (PStr (json_dumps (sample_env friendly)
                       (PDict (build_default_rupload_params (sample_env friendly)
                                 (PStr "77") 70))))
    /\ build_default_rupload_params (sample_env friendly) (PStr "77") 70
         !! "image_compression"
       = Some (PStr (json_dumps (sample_env friendly)
                       (PDict {[ "lib_name" := PStr "moz";
                                 "lib_version" := PStr "3.1.m";
                                 "quality" := PStr "70" ]}))).
Proof.
  apply (proj1 (upload_image_default_quality (sample_env friendly))
           (PStr "photo.jpg") (PStr "w") (PInt 1) (PStr "e1") (PStr "image/jpeg")
           (PStr "session") (PStr "77") (Some 0%Z) initial [Byte.x01]).
  - right. reflexivity.
  - reflexivity.
Defined.

(** *** Location resolution *)

Lemma request_fb_places_id_invalid (E : Env) (obj : Location) (st : State) :
  (py_is_none (lat obj) || py_is_none (lng obj)) && py_is_none (name obj) = true ->
  _request_fb_places_id E obj st
  = (Raise (ValueError "Atleast a lat/lng combination or name needs to be specified."), st).
Proof.
  intros [Hll Hname]%andb_true_iff.
  unfold _request_fb_places_id, bind, raise. by rewrite Hll, Hname.
Qed.

(** With a lat/lng combination or a name, the search request is issued and
    the method goes on with the transport's answer. *)
Lemma request_fb_places_id_search (E : Env) (obj : Location) (st : State) :
  (py_is_none (lat obj) || py_is_none (lng obj)) && py_is_none (name obj) = false ->
  let req := location_search_request E obj (draws st) in
  exists n,
    _request_fb_places_id E obj st
    = ((let* resp := lift (transport E (trace st) req) in
        let* as_json := lift (json resp) in
        let* status := lift (py_getitem as_json "status") in
        if py_ne_str status "ok" then raise BadResponse
        else
          let* venues := lift (py_getitem as_json "venues") in
          let* venue := lift (py_getitem0 venues) in
          let* external_id := lift (py_getitem venue "external_id") in
          ret (py_str E external_id)) {| trace := trace st ++ [req]; draws := n |}).
Proof.
  intros Hvalid. cbn zeta.
  unfold _request_fb_places_id, location_search_request, location_query.
  destruct (py_is_none (lat obj) || py_is_none (lng obj)) eqn:Hll.
  - cbn in Hvalid. rewrite Hvalid. exists (S (draws st)).
    unfold bind at 1 2 4. unfold draw, _request, lift at 1. cbn [trace draws].
    by destruct (transport E _ _).
  - exists (draws st). unfold bind at 1 3. unfold _request, lift at 1. cbn [trace draws].
    destruct (py_truthy (name obj)); by destruct (transport E _ _).
Qed.

Lemma py_ne_str_true (v : pyval) (s : string) : v <> PStr s -> py_ne_str v s = true.
Proof.
  destruct v as [| | | |t| |]; try done. cbn. intros Hne.
  destruct (String.eqb_spec t s) as [->|]; [by destruct Hne|done].
Qed.

Lemma location_query_by_position (E : Env) (obj : Location) (n : nat) :
  py_is_none (lat obj) || py_is_none (lng obj) = false ->
  location_query E obj n !! "latitude" = Some (lat obj)
  /\ location_query E obj n !! "longitude" = Some (lng obj)
  /\ location_query E obj n !! "rankToken" = None
  /\ location_query E obj n !! "search_query"
     = if py_truthy (name obj) then Some (name obj) else None.
Proof.
  intros Hll. unfold location_query. rewrite Hll.
  by destruct (py_truthy (name obj)).
Qed.

Lemma location_query_by_name (E : Env) (obj : Location) (n : nat) :
  py_is_none (lat obj) || py_is_none (lng obj) = true ->
  location_query E obj n
  = {[ "search_query" := name obj; "rankToken" := gen_uuid E n ]}.
Proof. intros Hll. unfold location_query. by rewrite Hll. Qed.

(** C2, as the code has it: without a lat/lng combination (either one is
    [None]) and without a name, [_request_fb_places_id] raises [ValueError]
    and issues nothing; otherwise it issues exactly one [location_search]
    GET, by latitude and longitude when both are present and by name
    otherwise; an answer whose status is not ["ok"] raises [BadResponse], and
    an answer with status ["ok"] whose first venue has an [external_id]
    resolves to that identifier as a string (["123"] for ["123"]); in either
    case no further request is issued. *)
Theorem request_fb_places_id_spec (E : Env) (obj : Location) (st : State) :
  ((py_is_none (lat obj) || py_is_none (lng obj)) && py_is_none (name obj) = true ->
     _request_fb_places_id E obj st
     = (Raise (ValueError "Atleast a lat/lng combination or name needs to be specified."),
        st))
  /\ ((py_is_none (lat obj) || py_is_none (lng obj)) && py_is_none (name obj) = false ->
      trace (_request_fb_places_id E obj st).2
      = trace st ++ [location_search_request E obj (draws st)]
      /\ (py_is_none (lat obj) || py_is_none (lng obj) = false ->
          location_query E obj (draws st) !! "latitude" = Some (lat obj)
          /\ location_query E obj (draws st) !! "longitude" = Some (lng obj))
      /\ (py_is_none (lat obj) || py_is_none (lng obj) = true ->
          location_query E obj (draws st)
          = {[ "search_query" := name obj; "rankToken" := gen_uuid E (draws st) ]})
      /\ (forall as_json status,
            transport E (trace st) (location_search_request E obj (draws st))
              = Ok {| json := Ok as_json |} ->
            py_getitem as_json "status" = Ok status ->
            status <> PStr "ok" ->
            (_request_fb_places_id E obj st).1 = Raise BadResponse)
      /\ (forall (d venue : dict) rest external_id,
            transport E (trace st) (location_search_request E obj (draws st))
              = Ok {| json := Ok (PDict d) |} ->
            d !! "status" = Some (PStr "ok") ->
            d !! "venues" = Some (PList (PDict venue :: rest)) ->
            venue !! "external_id" = Some external_id ->
            (_request_fb_places_id E obj st).1 = Ok (py_str E external_id)))
  /\ py_str E (PStr "123") = "123".
Proof.
  split; [apply request_fb_places_id_invalid|]. split; [|done].
  intros Hvalid.
  destruct (request_fb_places_id_search E obj st Hvalid) as [n Hrun].
  cbn zeta in Hrun. rewrite Hrun. clear Hrun.
  set (req := location_search_request E obj (draws st)).
  split; [|split; [|split; [|split]]].
  - unfold bind, lift, raise, ret. by outcome_cases.
  - intros Hll. by destruct (location_query_by_position E obj (draws st) Hll) as (? & ? & _).
  - apply location_query_by_name.
  - intros as_json status Hresp Hstatus Hne.
    unfold bind, lift, raise. rewrite Hresp. cbn [json]. rewrite Hstatus.
    by rewrite py_ne_str_true.
  - intros d venue rest external_id Hresp Hstatus Hvenues Hext.
    unfold bind, lift, raise, ret. rewrite Hresp. cbn. rewrite Hstatus. cbn.
    rewrite Hvenues. cbn. by rewrite Hext.
Qed.

Lemma request_fb_places_id_spec_witness :
  _request_fb_places_id (sample_env friendly) sample_place initial
  = (Ok "123",
     {| trace := [location_search_request (sample_env friendly) sample_place 0];
        draws := 1 |}).
Proof.
  pose proof (request_fb_places_id_spec (sample_env friendly) sample_place initial)
    as (_ & Hsearch & _).
  destruct (Hsearch eq_refl) as (Htrace & _ & _ & _ & Hok).
  specialize (Hok _ _ [] (PStr "123") eq_refl eq_refl eq_refl eq_refl).
  destruct (_request_fb_places_id (sample_env friendly) sample_place initial)
    as [o [t n]] eqn:Hrun.
  cbn in Htrace, Hok. subst o t.
  apply (f_equal (fun r => draws r.2)) in Hrun. vm_compute in Hrun. by subst n.
Defined.

(** C2 as stated fails twice. A location with a latitude but neither
    longitude nor name is not one with all three absent, yet the method raises
    [ValueError] and issues no request. And when the provider answers status
    ["ok"] with an empty venue list, the method raises [IndexError], not
    [BadResponse]. *)
Lemma request_fb_places_id_counterexample :
  _request_fb_places_id (sample_env friendly) sample_half_place initial
  = (Raise (ValueError "Atleast a lat/lng combination or name needs to be specified."),
     initial)
  /\ _request_fb_places_id (sample_env no_venues) sample_place initial
     = (Raise IndexError,
        {| trace := [location_search_request (sample_env no_venues) sample_place 0];
           draws := 1 |}).
Proof. split; reflexivity. Qed.

(** *** Chunked transfer *)

Lemma read_chunks_step (n : nat) (f : list Byte.byte) :
  read_chunks n f
  = match take n f with
    | [] => []
    | b :: bs => (b :: bs) :: read_chunks n (drop n f)
    end.
Proof.
  rewrite read_chunks_equation_1.
  unfold read_chunks_unfold_clause_1, Logic.inspect.
  by destruct (take n f).
Qed.

Lemma read_chunks_nil (n : nat) : read_chunks n [] = [].
Proof. rewrite read_chunks_step. by rewrite take_nil. Qed.

Lemma read_chunks_cons (n : nat) (f : list Byte.byte) :
  0 < n -> f <> [] -> read_chunks n f = take n f :: read_chunks n (drop n f).
Proof.
  intros Hn Hf. rewrite read_chunks_step.
  destruct n as [|n]; [lia|]. by destruct f.
Qed.

(** Chunk [i] is the [n] bytes (fewer at the end of the file) from position
    [i * n]. *)
Lemma read_chunks_lookup (n : nat) (i : nat) (f : list Byte.byte) :
  0 < n ->
  read_chunks n f !! i
  = if decide (i * n < List.length f) then Some (take n (drop (i * n) f)) else None.
Proof.
  intros Hn. revert f. induction i as [|i IH]; intros f.
  - destruct f as [|b f]; [by rewrite read_chunks_nil|].
    rewrite read_chunks_cons by done. cbn [lookup list_lookup Nat.mul].
    rewrite decide_True by (cbn; lia). by rewrite drop_0.
  - destruct f as [|b f].
    { rewrite read_chunks_nil. by rewrite decide_False by (cbn; lia). }
    rewrite read_chunks_cons by done. cbn [lookup list_lookup].
    change (read_chunks n (drop n (b :: f)) !! i
            = if decide (S i * n < List.length (b :: f))
              then Some (take n (drop (S i * n) (b :: f))) else None).
    rewrite IH, length_drop, drop_drop.
    replace (n + i * n) with (S i * n) by lia.
    destruct (decide (i * n < List.length (b :: f) - n));
      [rewrite decide_True by lia | rewrite decide_False by lia]; done.
Qed.

Lemma read_chunks_concat (n : nat) (f : list Byte.byte) :
  0 < n -> concat (read_chunks n f) = f.
Proof.
  intros Hn. remember (List.length f) as m eqn:Hm. revert f Hm.
  induction m as [m IH] using lt_wf_ind. intros f ->.
  destruct f as [|b f]; [by rewrite read_chunks_nil|].
  rewrite read_chunks_cons by done. cbn [concat].
  rewrite (IH (List.length (drop n (b :: f)))); [apply take_drop| |done].
  rewrite length_drop. cbn. lia.
Qed.

Lemma read_chunks_length (n : nat) (f : list Byte.byte) :
  0 < n -> List.length (read_chunks n f) = (List.length f + (n - 1)) / n.
Proof.
  intros Hn. remember (List.length f) as m eqn:Hm. revert f Hm.
  induction m as [m IH] using lt_wf_ind. intros f ->.
  destruct f as [|b f].
  { rewrite read_chunks_nil. cbn [List.length]. by rewrite Nat.div_small by lia. }
  rewrite read_chunks_cons by done. cbn [List.length].
  rewrite (IH (List.length (drop n (b :: f))) ltac:(rewrite length_drop; cbn; lia) _ eq_refl).
  rewrite length_drop. cbn [List.length].
  destruct (decide (n <= S (List.length f))) as [Hle|Hgt].
  - replace (S (List.length f) + (n - 1)) with ((S (List.length f) - n + (n - 1)) + 1 * n)
      by lia.
    rewrite Nat.div_add by lia. lia.
  - replace (S (List.length f) - n) with 0 by lia.
    rewrite (Nat.div_small (0 + (n - 1))) by lia.
    apply (Nat.div_unique _ _ 1 (S (List.length f) - 1)); lia.
Qed.

Lemma py_mapping_Ok (v : pyval) (d : dict) : py_mapping v = Ok d -> v = PDict d.
Proof. destruct v; try done. by intros [= ->]. Qed.

Lemma py_getitem_Ok (v x : pyval) (k : string) :
  py_getitem v k = Ok x -> exists d, v = PDict d /\ d !! k = Some x.
Proof.
  destruct v as [| | | | | |d]; try done. cbn.
  destruct (d !! k) eqn:Hk; [|done]. intros [= ->]. by exists d.
Qed.

(** A Transfer loop that runs to its end has issued the pairs of its chunks
    and has advanced the offset by the bytes sent. *)
Lemma transfer_chunks_Ok (E : Env) (hdrs : dict) (chunks : list (list Byte.byte)) :
  forall (offset : Z) (st : State) (offset' : Z) (st' : State),
    transfer_chunks E hdrs chunks offset st = (Ok offset', st') ->
    offset' = (offset + Z.of_nat (List.length (concat chunks)))%Z
    /\ draws st' = draws st + List.length chunks
    /\ exists reqs,
         trace st' = trace st ++ reqs
         /\ transfer_pairs E hdrs (trace st) (draws st) offset chunks reqs.
Proof.
  induction chunks as [|chunk rest IH]; intros offset st offset' st'.
  - intros [= <- <-]. cbn. split; [lia|]. split; [lia|].
    exists []. by rewrite app_nil_r.
  - cbn [transfer_chunks]. unfold bind at 1 2. unfold draw, _request at 1.
    cbn [trace draws].
    destruct (transport E (trace st) _) as [[j]|e] eqn:Hget; [|done].
    unfold bind at 1, lift at 1. cbn [json]. destruct j as [v|e]; [|done].
    unfold bind at 1, lift at 1. destruct (py_mapping v) as [d|e] eqn:Hmap; [|done].
    apply py_mapping_Ok in Hmap as ->.
    unfold bind at 1, _request at 1. cbn [trace draws].
    destruct (transport E (trace st ++ _) _) as [r|e]; [|done].
    intros (-> & Hdraws & reqs & Htrace & Hpairs)%IH.
    cbn [trace draws] in Hdraws, Htrace, Hpairs.
    split; [cbn [concat]; rewrite length_app; lia|].
    split; [cbn [List.length]; lia|].
    eexists (_ :: _ :: reqs). split.
    + rewrite Htrace, <- !app_assoc. reflexivity.
    + cbn [transfer_pairs]. split; [reflexivity|]. split.
      * exists d. by split.
      * by rewrite <- app_assoc in Hpairs.
Qed.

(** The pairs by position: chunk [i] goes out as requests [2i] and [2i+1],
    with the provider's answer to the GET merged into the POST and the bytes
    of the earlier chunks as its start offset. *)
Lemma transfer_pairs_lookup (E : Env) (hdrs : dict) (chunks : list (list Byte.byte)) :
  forall (pre : list Request) (n : nat) (offset : Z) (reqs : list Request),
    transfer_pairs E hdrs pre n offset chunks reqs ->
    List.length reqs = 2 * List.length chunks
    /\ forall (i : nat) (chunk : list Byte.byte),
         chunks !! i = Some chunk ->
         exists resp_headers,
           reqs !! (2 * i) = Some (transfer_get_request hdrs (uuid4 E (n + i)))
           /\ transport E (pre ++ take (2 * i) reqs)
                          (transfer_get_request hdrs (uuid4 E (n + i)))
              = Ok {| json := Ok (PDict resp_headers) |}
           /\ reqs !! (2 * i + 1)
              = Some (transfer_post_request E hdrs (uuid4 E (n + i)) resp_headers
                        (offset + Z.of_nat (List.length (concat (take i chunks))))
                        chunk).
Proof.
  induction chunks as [|chunk rest IH]; intros pre n offset reqs.
  - destruct reqs; [|done]. intros _. split; [done|]. intros i c Hc. inversion Hc.
  - destruct reqs as [|g [|p reqs]]; try done.
    intros (-> & (d & Hd & ->) & Hrest). apply IH in Hrest as [Hlen Hlook].
    split; [cbn [List.length]; lia|].
    intros [|i] c Hc.
    + injection Hc as ->. exists d. rewrite Nat.add_0_r, Z.add_0_r.
      cbn [Nat.mul take]. by rewrite app_nil_r.
    + destruct (Hlook i c Hc) as (d' & Hg & Hd' & Hp). exists d'.
      replace (2 * S i) with (S (S (2 * i))) by lia.
      replace (n + S i) with (S n + i) by lia.
      cbn [take concat]. rewrite length_app.
      replace (offset + Z.of_nat (List.length chunk + List.length (concat (take i rest))))%Z
        with (offset + Z.of_nat (List.length chunk)
              + Z.of_nat (List.length (concat (take i rest))))%Z by lia.
      split; [done|]. split; [|done].
      by rewrite <- app_assoc in Hd'.
Qed.

(** A chunked upload that returns has issued the Start request, obtained a
    stream id and issued the Transfer pairs of the file's chunks. *)
Lemma upload_video_in_chunks_Ok (E : Env) (obj : PostFeedVideo) (st st' : State)
    (hdrs : dict) :
  _upload_video_in_chunks E obj st = (Ok hdrs, st') ->
  exists h w resp stream_id content reqs,
    py_int E (height obj) = Ok h
    /\ py_int E (width obj) = Ok w
    /\ transport E (trace st)
         (start_request (video_rupload_params E obj h w) (uuid4 E (draws st)))
       = Ok {| json := Ok (PDict resp) |}
    /\ resp !! "stream_id" = Some stream_id
    /\ hdrs = {[ "stream_id" := stream_id ]}
    /\ open_rb E (path obj) = Ok content
    /\ trace st'
       = trace st
         ++ start_request (video_rupload_params E obj h w) (uuid4 E (draws st)) :: reqs
    /\ transfer_pairs E hdrs
         (trace st ++ [start_request (video_rupload_params E obj h w) (uuid4 E (draws st))])
         (S (draws st)) 0 (read_chunks 1024 content) reqs
    /\ draws st' = S (draws st) + List.length (read_chunks 1024 content).
Proof.
  unfold _upload_video_in_chunks.
  unfold bind at 1, lift at 1. destruct (py_int E (height obj)) as [h|e]; [|done].
  unfold bind at 1, lift at 1. destruct (py_int E (width obj)) as [w|e]; [|done].
  unfold bind at 1 2. unfold draw, _request at 1. cbn [trace draws].
  destruct (transport E (trace st) _) as [[j]|e] eqn:Hstart; [|done].
  unfold bind at 1, lift at 1. cbn [json]. destruct j as [v|e]; [|done].
  unfold bind at 1, lift at 1.
  destruct (py_getitem v "stream_id") as [sid|e] eqn:Hsid; [|done].
  apply py_getitem_Ok in Hsid as (resp & -> & Hsid).
  unfold bind at 1, lift at 1, _bytes_from_file.
  destruct (open_rb E (path obj)) as [content|e]; [|done].
  unfold bind at 1.
  destruct (transfer_chunks E _ _ 0 _) as [[offset|e] st2] eqn:Hloop; [|done].
  intros [= <- <-].
  apply transfer_chunks_Ok in Hloop as (_ & Hdraws & reqs & Htrace & Hpairs).
  cbn [trace draws] in Hdraws, Htrace, Hpairs.
  exists h, w, resp, sid, content, reqs.
  repeat (split; [done|]). split; [|done].
  by rewrite Htrace, <- app_assoc.
Qed.

Lemma read_chunks_take (n : nat) (i : nat) :
  forall f : list Byte.byte,
    0 < n -> concat (take i (read_chunks n f)) = take (i * n) f.
Proof.
  induction i as [|i IH]; intros f Hn; [done|].
  destruct f as [|b f]; [by rewrite read_chunks_nil, !take_nil|].
  rewrite read_chunks_cons by done. cbn [take concat].
  rewrite IH by done. apply take_take_drop.
Qed.

(** What a Transfer POST says in its headers: the start offset, and as stream
    id the provider's own if its answer to the GET had one, else the
    session's. *)
Lemma transfer_post_headers (E : Env) (hdrs : dict) (entity_name : string)
    (resp_headers : dict) (offset : Z) (chunk : list Byte.byte) :
  exists h,
    headers (transfer_post_request E hdrs entity_name resp_headers offset chunk) = Some h
    /\ h !! "segment-start-offset" = Some (PStr (str_of_int offset))
    /\ h !! "stream_id" = match resp_headers !! "stream_id" with
                          | Some v => Some v
                          | None => hdrs !! "stream_id"
                          end.
Proof.
  eexists. split; [reflexivity|]. unfold dict_merge. split.
  - apply lookup_union_Some_l. reflexivity.
  - rewrite lookup_union_r by reflexivity. rewrite lookup_union.
    by destruct (resp_headers !! "stream_id"), (hdrs !! "stream_id").
Qed.

(** C3: a file of [S] bytes that [_upload_video_in_chunks] uploads goes out,
    after the Start request, as [ceil(S/1024)] pairs of one GET and one POST;
    pair [i] carries bytes [1024 i ..] of the file, so the chunks follow the
    file's byte order; its [segment-start-offset] is the number of bytes of
    chunks [0..i-1], which grows by the size of chunk [i] for the next pair
    and which for the last chunk is [S] minus that chunk's size. *)
Theorem chunked_transfer (E : Env) (obj : PostFeedVideo) (st st' : State) (hdrs : dict)
    (content : list Byte.byte) :
  open_rb E (path obj) = Ok content ->
  _upload_video_in_chunks E obj st = (Ok hdrs, st') ->
  exists start reqs,
    trace st' = trace st ++ start :: reqs
    /\ transfer_pairs E hdrs (trace st ++ [start]) (S (draws st)) 0
         (read_chunks 1024 content) reqs
    /\ List.length (read_chunks 1024 content) = (List.length content + 1023) / 1024
    /\ List.length reqs = 2 * ((List.length content + 1023) / 1024)
    /\ concat (read_chunks 1024 content) = content
    /\ forall i chunk,
         read_chunks 1024 content !! i = Some chunk ->
         chunk = take 1024 (drop (i * 1024) content)
         /\ List.length (concat (take i (read_chunks 1024 content))) = i * 1024
         /\ List.length (concat (take (S i) (read_chunks 1024 content)))
            = i * 1024 + List.length chunk
         /\ (S i = List.length (read_chunks 1024 content) ->
             i * 1024 = List.length content - List.length chunk)
         /\ exists g p h,
              reqs !! (2 * i) = Some g /\ reqs !! (2 * i + 1) = Some p
              /\ method g = GET /\ method p = POST /\ endpoint g = endpoint p
              /\ data p = DataBytes chunk
              /\ headers p = Some h
              /\ h !! "segment-start-offset"
                 = Some (PStr (str_of_int (Z.of_nat (i * 1024)))).
Proof.
  intros Hopen Hrun.
  apply upload_video_in_chunks_Ok in Hrun
    as (h & w & resp & sid & content' & reqs & _ & _ & _ & _ & _ & Hopen' & Htrace
        & Hpairs & _).
  rewrite Hopen in Hopen'. injection Hopen' as <-.
  eexists _, reqs. split; [exact Htrace|]. split; [exact Hpairs|].
  pose proof (read_chunks_length 1024 content ltac:(lia)) as Hlen.
  change (1024 - 1) with 1023 in Hlen.
  apply transfer_pairs_lookup in Hpairs as [Hreqs Hlook].
  split; [done|]. split; [by rewrite Hreqs, Hlen|].
  split; [by apply read_chunks_concat; lia|].
  intros i chunk Hi.
  pose proof Hi as Hi'. rewrite read_chunks_lookup in Hi' by lia.
  destruct (decide (i * 1024 < List.length content)) as [Hlt|]; [|done].
  injection Hi' as Hchunk.
  assert (List.length (concat (take i (read_chunks 1024 content))) = i * 1024) as Hoff.
  { rewrite read_chunks_take by lia. rewrite length_take. lia. }
  split; [done|]. split; [done|]. split.
  { rewrite (take_S_r _ _ _ Hi), concat_app, length_app, Hoff.
    cbn [concat]. by rewrite app_nil_r. }
  split.
  - intros Hlast.
    assert (read_chunks 1024 content !! S i = None) as Hend.
    { apply lookup_ge_None. lia. }
    rewrite read_chunks_lookup in Hend by lia.
    destruct (decide (S i * 1024 < List.length content)); [done|].
    rewrite <- Hchunk, length_take, length_drop. lia.
  - destruct (Hlook i chunk Hi) as (d & Hg & _ & Hp).
    destruct (transfer_post_headers E hdrs (uuid4 E (S (draws st) + i)) d
                (0 + Z.of_nat (List.length (concat (take i (read_chunks 1024 content)))))
                chunk) as (hd & Hhd & Hoffset & _).
    eexists _, _, hd. split; [exact Hg|]. split; [exact Hp|].
    repeat (split; [done|]). by rewrite Hoffset, Hoff, Z.add_0_l.
Qed.

Lemma chunked_transfer_witness :
  exists start reqs,
    trace (_upload_video_in_chunks (sample_env friendly) sample_video initial).2
    = start :: reqs
    /\ List.length reqs = 4.
Proof.
  destruct (chunked_transfer (sample_env friendly) sample_video initial
              (_upload_video_in_chunks (sample_env friendly) sample_video initial).2
              {[ "stream_id" := PStr "A" ]} (repeat Byte.x00 1500))
    as (start & reqs & Htrace & _ & _ & Hlen & _).
  - reflexivity.
  - vm_compute. reflexivity.
  - exists start, reqs. split; [exact Htrace|]. vm_compute in Hlen. exact Hlen.
Defined.

(** *** The video pipeline *)

Lemma finish_video_upload_Ok (E : Env) (obj : PostFeedVideo) (st st' : State) :
  _finish_video_upload E obj st = (Ok tt, st') ->
  exists fin,
    remove_from_dict (video_to_dict E obj) finish_removed = Ok fin
    /\ st' = {| trace := trace st ++ [upload_finish_request fin]; draws := draws st |}.
Proof.
  destruct (remove_from_dict (video_to_dict E obj) finish_removed) as [fin|e] eqn:Hrm.
  - rewrite (finish_video_upload_run _ _ _ _ Hrm). intros [= _ <-]. by exists fin.
  - unfold _finish_video_upload, bind, lift. by rewrite Hrm.
Qed.

Lemma configure_video_Ok (E : Env) (obj : PostFeedVideo) (st st' : State) :
  _configure_video E obj st = (Ok tt, st') ->
  exists conf,
    remove_from_dict (video_to_dict E obj) configure_removed = Ok conf
    /\ st' = {| trace := trace st ++ [upload_finish_request conf]; draws := draws st |}.
Proof.
  destruct (remove_from_dict (video_to_dict E obj) configure_removed) as [conf|e] eqn:Hrm.
  - rewrite (configure_video_run _ _ _ _ Hrm). intros [= _ <-]. by exists conf.
  - unfold _configure_video, bind, lift. by rewrite Hrm.
Qed.

Lemma upload_video_thumbnail_Ok (E : Env) (obj : PostFeedVideo) (hdrs : dict)
    (st st' : State) :
  _upload_video_thumbnail E obj hdrs st = (Ok tt, st') ->
  exists f,
    open_rb E (fspath (thumbnail_path obj)) = Ok f
    /\ not_jpeg (get_image_type (thumbnail_path obj)) = false
    /\ st' = {| trace := trace st ++ [end_request (uuid4 E (draws st)) hdrs;
                                      thumbnail_upload_request E obj (draws st) f];
                draws := S (S (S (draws st))) |}.
Proof.
  rewrite upload_video_thumbnail_run.
  destruct (open_rb E _) as [f|e]; [|done].
  destruct (not_jpeg _); [done|]. cbn zeta.
  destruct (transport E (trace st) _); [|done].
  destruct (transport E (trace st ++ _) _); [|done].
  intros [= <-]. exists f. by rewrite <- app_assoc.
Qed.

(** A publish that returns went through its four stages in order. *)
Lemma post_video_Ok (E : Env) (obj : PostFeedVideo) (st st' : State) :
  post_video E obj st = (Ok tt, st') ->
  exists hdrs st1 st2 st3,
    _upload_video_in_chunks E obj st = (Ok hdrs, st1)
    /\ _upload_video_thumbnail E obj hdrs st1 = (Ok tt, st2)
    /\ _finish_video_upload E obj st2 = (Ok tt, st3)
    /\ _configure_video E obj st3 = (Ok tt, st').
Proof.
  unfold post_video. unfold bind at 1.
  destruct (_upload_video_in_chunks E obj st) as [[hdrs|e] st1] eqn:H1; [|done].
  unfold bind at 1.
  destruct (_upload_video_thumbnail E obj hdrs st1) as [[[]|e] st2] eqn:H2; [|done].
  unfold bind at 1.
  destruct (_finish_video_upload E obj st2) as [[[]|e] st3] eqn:H3; [|done].
  intros Hconf. by exists hdrs, st1, st2, st3.
Qed.

(** A stage that raises ends the publish at once: nothing of a later stage
    is run. *)
Lemma post_video_fail_fast (E : Env) (obj : PostFeedVideo) (st : State) :
  (forall e st1, _upload_video_in_chunks E obj st = (Raise e, st1) ->
                 post_video E obj st = (Raise e, st1))
  /\ (forall hdrs st1 e st2,
        _upload_video_in_chunks E obj st = (Ok hdrs, st1) ->
        _upload_video_thumbnail E obj hdrs st1 = (Raise e, st2) ->
        post_video E obj st = (Raise e, st2))
  /\ (forall hdrs st1 st2 e st3,
        _upload_video_in_chunks E obj st = (Ok hdrs, st1) ->
        _upload_video_thumbnail E obj hdrs st1 = (Ok tt, st2) ->
        _finish_video_upload E obj st2 = (Raise e, st3) ->
        post_video E obj st = (Raise e, st3)).
Proof.
  unfold post_video, bind. split; [|split].
  - by intros e st1 ->.
  - by intros hdrs st1 e st2 -> ->.
  - by intros hdrs st1 st2 e st3 -> -> ->.
Qed.

(** C4, as the code has it: a publish that returns has issued, in this
    order, the Start request, the [ceil(S/1024)] Transfer pairs, the End
    request, the thumbnail image upload, the finish request and the configure
    request, and a stage that raises stops the publish before any call of a
    later stage. The stream id of the Start response is the only header of
    every Transfer GET and of the End request; on a Transfer POST the
    [stream_id] header is that id unless the provider's answer to the chunk's
    GET has a [stream_id] of its own, which then takes its place. *)
Theorem post_video_order (E : Env) (obj : PostFeedVideo) (st : State) :
  (forall st' content,
      open_rb E (path obj) = Ok content ->
      post_video E obj st = (Ok tt, st') ->
      exists h w resp stream_id pairs f fin conf,
        trace st'
        = trace st
          ++ start_request (video_rupload_params E obj h w) (uuid4 E (draws st))
             :: pairs
          ++ [end_request (uuid4 E (S (draws st) + List.length (read_chunks 1024 content)))
                          {[ "stream_id" := stream_id ]};
              thumbnail_upload_request E obj
                (S (draws st) + List.length (read_chunks 1024 content)) f;
              upload_finish_request fin;
              upload_finish_request conf]
        /\ transport E (trace st)
             (start_request (video_rupload_params E obj h w) (uuid4 E (draws st)))
           = Ok {| json := Ok (PDict resp) |}
        /\ resp !! "stream_id" = Some stream_id
        /\ List.length pairs = 2 * ((List.length content + 1023) / 1024)
        /\ (forall i chunk,
              read_chunks 1024 content !! i = Some chunk ->
              exists g p resp_headers hp,
                pairs !! (2 * i) = Some g /\ pairs !! (2 * i + 1) = Some p
                /\ method g = GET /\ method p = POST /\ endpoint g = endpoint p
                /\ headers g = Some {[ "stream_id" := stream_id ]}
                /\ transport E
                     (trace st
                      ++ start_request (video_rupload_params E obj h w)
                                       (uuid4 E (draws st))
                         :: take (2 * i) pairs) g
                   = Ok {| json := Ok (PDict resp_headers) |}
                /\ data p = DataBytes chunk
                /\ headers p = Some hp
                /\ hp !! "stream_id" = match resp_headers !! "stream_id" with
                                       | Some v => Some v
                                       | None => Some stream_id
                                       end)
        /\ open_rb E (fspath (thumbnail_path obj)) = Ok f
        /\ remove_from_dict (video_to_dict E obj) finish_removed = Ok fin
        /\ remove_from_dict (video_to_dict E obj) configure_removed = Ok conf)
  /\ (forall e st1, _upload_video_in_chunks E obj st = (Raise e, st1) ->
                    post_video E obj st = (Raise e, st1))
  /\ (forall hdrs st1 e st2,
        _upload_video_in_chunks E obj st = (Ok hdrs, st1) ->
        _upload_video_thumbnail E obj hdrs st1 = (Raise e, st2) ->
        post_video E obj st = (Raise e, st2))
  /\ (forall hdrs st1 st2 e st3,
        _upload_video_in_chunks E obj st = (Ok hdrs, st1) ->
        _upload_video_thumbnail E obj hdrs st1 = (Ok tt, st2) ->
        _finish_video_upload E obj st2 = (Raise e, st3) ->
        post_video E obj st = (Raise e, st3)).
Proof.
  split; [|apply post_video_fail_fast].
  intros st' content Hopen Hrun.
  apply post_video_Ok in Hrun as (hdrs & st1 & st2 & st3 & H1 & H2 & H3 & H4).
  apply upload_video_in_chunks_Ok in H1
    as (h & w & resp & sid & content' & pairs & _ & _ & Hstart & Hsid & -> & Hopen'
        & Htrace1 & Hpairs & Hdraws1).
  rewrite Hopen in Hopen'. injection Hopen' as <-.
  apply upload_video_thumbnail_Ok in H2 as (f & Hf & _ & ->).
  apply finish_video_upload_Ok in H3 as (fin & Hfin & ->).
  apply configure_video_Ok in H4 as (conf & Hconf & ->).
  exists h, w, resp, sid, pairs, f, fin, conf.
  cbn [trace draws]. rewrite Htrace1, Hdraws1.
  split; [by rewrite <- !app_assoc|].
  split; [done|]. split; [done|].
  apply transfer_pairs_lookup in Hpairs as [Hlen Hlook].
  split.
  { rewrite Hlen, read_chunks_length by lia. reflexivity. }
  split; [|done].
  intros i chunk Hi.
  destruct (Hlook i chunk Hi) as (d & Hg & Hd & Hp).
  destruct (transfer_post_headers E {[ "stream_id" := sid ]} (uuid4 E (S (draws st) + i)) d
              (0 + Z.of_nat (List.length (concat (take i (read_chunks 1024 content)))))
              chunk) as (hp & Hhp & _ & Hstream).
  eexists _, _, d, hp. split; [exact Hg|]. split; [exact Hp|].
  repeat (split; [done|]). split.
  { by rewrite <- app_assoc in Hd. }
  split; [done|]. split; [done|].
  by rewrite Hstream.
Qed.

Lemma post_video_order_witness :
  exists reqs,
    trace (post_video (sample_env friendly) sample_video initial).2 = reqs
    /\ List.length reqs = 9.
Proof.
  destruct (proj1 (post_video_order (sample_env friendly) sample_video initial)
              (post_video (sample_env friendly) sample_video initial).2
              (repeat Byte.x00 1500))
    as (h & w & resp & sid & pairs & f & fin & conf & Htrace & _ & _ & Hlen & _).
  - reflexivity.
  - vm_compute. reflexivity.
  - eexists. split; [exact Htrace|].
    cbn [trace initial app]. rewrite length_cons, length_app, Hlen. reflexivity.
Defined.

(** C4 as stated fails on the stream id. With a provider that answers the
    Start call with stream id ["A"] and each Transfer GET with headers that
    hold [stream_id: "B"], the publish returns, and the first Transfer POST
    (the third request) goes out with [stream_id: "B"]. *)
Lemma post_video_order_counterexample :
  (post_video (sample_env restreaming) sample_video initial).1 = Ok tt
  /\ (trace (post_video (sample_env restreaming) sample_video initial).2 !! 0
        ≫= fun start => Some (restreaming [] start))
     = Some (ok_response [("stream_id", PStr "A")])
  /\ (trace (post_video (sample_env restreaming) sample_video initial).2 !! 2
        ≫= fun p => Some (method p, endpoint p, headers p ≫= (.!! "stream_id")))
     = Some (POST, "rupload_igvideo/uuid-1?segmented=true&phase=transfer",
             Some (PStr "B")).
Proof. split; [|split]; vm_compute; reflexivity. Qed.

(** *** The image pipeline *)

(** [post_post] is its upload part followed by the choice of the configure
    endpoint. *)
Lemma post_post_split (E : Env) (quality : option Z) (run : PostRun) :
  post_post E quality run
  = match post_post_upload E quality run with
    | (Ok payload, run') =>
        if (source_type (obj_now run') =? Feed_value E)%Z then
          in_world (_request E (configure_request E "media/configure/" payload)) run'
        else if (source_type (obj_now run') =? Story_value E)%Z then
          in_world (_request E (configure_request E "media/configure_to_story/" payload))
                   run'
        else
          (Raise (PyException "{} is not a supported post location."
                    (PInt (source_type (obj_now run')))), run')
    | (Raise e, run') => (Raise e, run')
    end.
Proof.
  destruct run as [st obj].
  unfold post_post, post_post_upload, bind, in_world, get_obj, set_obj, lift, ret, raise.
  cbn [world obj_now].
  repeat match goal with
         | _ => progress cbn [world obj_now source_type location device negb]
         | |- context [device obj] => destruct (device obj)
         | |- context [location obj] => destruct (location obj)
         | |- context [py_int E ?v] => destruct (py_int E v)
         | |- context [dict_pop ?k ?d] => destruct (dict_pop k d) as [[? ?]|]
         | |- context [_upload_image E ?a ?b ?c ?d ?e ?f ?g ?q ?w] =>
             destruct (_upload_image E a b c d e f g q w) as [[?|?] ?]
         | |- context [py_truthy ?v] => destruct (py_truthy v)
         | |- context [_request_fb_places_id E ?l ?w] =>
             destruct (_request_fb_places_id E l w) as [[?|?] ?]
         end;
    repeat match goal with
           | |- context [(?a =? ?b)%Z] => destruct (a =? b)%Z
           end;
    reflexivity.
Qed.



Lemma upload_image_request_endpoint (E : Env) (h : dict) (content : list Byte.byte) :
  endpoint (upload_image_request E h content) <> "media/configure/"
  /\ endpoint (upload_image_request E h content) <> "media/configure_to_story/".
Proof.
  assert (exists rest, endpoint (upload_image_request E h content) = String "h" rest)
    as [rest ->] by (eexists; reflexivity).
  by split.
Qed.





(** *** Publishes that return *)

Lemma transfer_chunks_returns (E : Env) (hdrs : dict) (chunks : list (list Byte.byte)) :
  answers_all E ->
  forall offset st, exists st',
    transfer_chunks E hdrs chunks offset st
    = (Ok (offset + Z.of_nat (List.length (concat chunks)))%Z, st').
Proof.
  intros Hall. induction chunks as [|chunk rest IH]; intros offset st.
  - exists st. cbn. by rewrite Z.add_0_r.
  - cbn [transfer_chunks]. unfold bind at 1 2. unfold draw, _request at 1.
    cbn [trace draws]. destruct (Hall (trace st) (transfer_get_request hdrs
      (uuid4 E (draws st)))) as (d & -> & _).
    unfold bind at 1 2 3, lift, _request at 1. cbn [json py_mapping trace draws].
    match goal with
    | |- context [transport E ?t ?r] => destruct (Hall t r) as (d' & -> & _)
    end.
    match goal with
    | |- context [transfer_chunks E hdrs rest ?o ?s] => destruct (IH o s) as [st' ->]
    end.
    exists st'. cbn [concat]. rewrite length_app. do 2 f_equal. lia.
Qed.

(** With such a provider, readable files, a JPEG thumbnail, integer
    dimensions and a serialization that has the fields of both removal lists,
    the video publish returns. *)
Lemma post_video_returns (E : Env) (obj : PostFeedVideo) (st : State)
    (h w : Z) (content thumb : list Byte.byte) :
  answers_all E ->
  py_int E (height obj) = Ok h ->
  py_int E (width obj) = Ok w ->
  open_rb E (path obj) = Ok content ->
  open_rb E (fspath (thumbnail_path obj)) = Ok thumb ->
  not_jpeg (get_image_type (thumbnail_path obj)) = false ->
  (forall k, k ∈ finish_removed -> is_Some (video_to_dict E obj !! k)) ->
  (forall k, k ∈ configure_removed -> is_Some (video_to_dict E obj !! k)) ->
  exists st', post_video E obj st = (Ok tt, st').
Proof.
  intros Hall Hh Hw Hcontent Hthumb Hjpg Hfin Hconf.
  destruct (remove_from_dict_present _ _ finish_removed_NoDup Hfin) as [fin Hf].
  destruct (remove_from_dict_present _ _ configure_removed_NoDup Hconf) as [conf Hc].
  unfold post_video. unfold bind at 1.
  assert (exists hdrs st1, _upload_video_in_chunks E obj st = (Ok hdrs, st1))
    as (hdrs & st1 & ->).
  { unfold _upload_video_in_chunks. unfold bind at 1 2, lift at 1 2. rewrite Hh, Hw.
    unfold bind at 1 2, draw, _request at 1. cbn [trace draws].
    match goal with
    | |- context [transport E ?t ?r] => destruct (Hall t r) as (d & -> & [sid Hsid])
    end.
    unfold bind at 1 2 3, lift at 1 2 3, _bytes_from_file.
    cbn [json py_getitem]. rewrite Hsid, Hcontent.
    unfold bind at 1.
    match goal with
    | |- context [transfer_chunks E ?hd ?cs ?o ?s] =>
        destruct (transfer_chunks_returns E hd cs Hall o s) as [st1 ->]
    end.
    by eexists _, _. }
  unfold bind at 1. rewrite upload_video_thumbnail_run, Hthumb, Hjpg. cbn zeta.
  match goal with
  | |- context [transport E ?t ?r] => destruct (Hall t r) as (d1 & -> & _)
  end.
  match goal with
  | |- context [transport E ?t ?r] => destruct (Hall t r) as (d2 & -> & _)
  end.
  unfold bind at 1. rewrite (finish_video_upload_run _ _ _ _ Hf).
  match goal with
  | |- context [transport E ?t ?r] => destruct (Hall t r) as (d3 & -> & _)
  end.
  rewrite (configure_video_run _ _ _ _ Hc).
  match goal with
  | |- context [transport E ?t ?r] => destruct (Hall t r) as (d4 & -> & _)
  end.
  by eexists.
Qed.

(** ** Further properties *)

(** *** remove_from_dict *)

(** X1: [remove_from_dict] returns exactly when the removal list has no
    repeated key and every key of it is in the dict; what it returns is the
    dict without the listed keys and with every other entry unchanged. *)
Theorem remove_from_dict_returns_iff (d d' : dict) (ks : list string) :
  remove_from_dict d ks = Ok d'
  <-> NoDup ks
      /\ (forall k, k ∈ ks -> is_Some (d !! k))
      /\ (forall k, d' !! k = if decide (k ∈ ks) then None else d !! k).
Proof.
  split; [apply remove_from_dict_Ok_inv|].
  intros (Hnd & Hin & Hlook).
  destruct (remove_from_dict_present ks d Hnd Hin) as [d'' Hrun].
  rewrite Hrun. f_equal. apply map_eq. intros k.
  apply remove_from_dict_Ok_inv in Hrun as (_ & _ & Hlook'').
  by rewrite Hlook, Hlook''.
Qed.

(** X2: the key that [remove_from_dict] raises [KeyError] for is the first
    one of the list that is not in the dict any more when its turn comes:
    absent from the start, or listed before. *)
Theorem remove_from_dict_first_failure (d : dict) (pre post : list string) (k : string) :
  NoDup pre ->
  (forall j, j ∈ pre -> is_Some (d !! j)) ->
  d !! k = None \/ k ∈ pre ->
  remove_from_dict d (pre ++ k :: post) = Raise (KeyError k).
Proof.
  revert d. induction pre as [|j pre IH]; intros d Hnd Hin Hk.
  - cbn [app]. rewrite remove_from_dict_cons.
    destruct Hk as [->|Hk]; [done|by inversion Hk].
  - cbn [app]. rewrite remove_from_dict_cons.
    destruct (Hin j) as [v ->]; [by left|].
    apply NoDup_cons in Hnd as [Hfresh Hnd].
    apply IH; [done| |].
    + intros j' Hj'. rewrite lookup_delete_ne by (by intros ->). apply Hin. by right.
    + destruct Hk as [Hk|[->|Hk]%elem_of_cons].
      * left. destruct (decide (j = k)) as [->|Hne];
          [apply lookup_delete_eq|by rewrite lookup_delete_ne].
      * left. apply lookup_delete_eq.
      * by right.
Qed.

Lemma remove_from_dict_first_failure_witness :
  remove_from_dict {[ "a" := PInt 1; "b" := PInt 2 ]} (["a"; "b"] ++ "a" :: ["c"])
  = Raise (KeyError "a").
Proof.
  apply remove_from_dict_first_failure.
  - apply (bool_decide_unpack _). vm_compute. reflexivity.
  - intros j Hj.
    repeat (apply elem_of_cons in Hj as [->|Hj]); try (by inversion Hj);
      eexists; vm_compute; reflexivity.
  - right. apply (bool_decide_unpack _). vm_compute. reflexivity.
Defined.

(** The in-place run and the functional one agree. *)
Lemma remove_from_dict_inplace_agrees (ks : list string) (d : dict) :
  match remove_from_dict d ks with
  | Ok d' => remove_from_dict_inplace ks d = (Ok tt, d')
  | Raise e => (remove_from_dict_inplace ks d).1 = Raise e
  end.
Proof.
  revert d. induction ks as [|k ks IH]; intros d; [done|].
  rewrite remove_from_dict_cons. cbn [remove_from_dict_inplace]. unfold dict_pop.
  destruct (d !! k); [apply IH|done].
Qed.

(** X3: when [remove_from_dict] raises, the caller's dict has already lost
    the keys listed before the offending one, and only those. *)
Theorem remove_from_dict_inplace_partial (d : dict) (pre post : list string) (k : string) :
  NoDup pre ->
  (forall j, j ∈ pre -> is_Some (d !! j)) ->
  d !! k = None \/ k ∈ pre ->
  exists d',
    remove_from_dict_inplace (pre ++ k :: post) d = (Raise (KeyError k), d')
    /\ forall j, d' !! j = if decide (j ∈ pre) then None else d !! j.
Proof.
  revert d. induction pre as [|j pre IH]; intros d Hnd Hin Hk.
  - exists d. cbn [app remove_from_dict_inplace]. unfold dict_pop.
    destruct Hk as [->|Hk]; [|by inversion Hk]. split; [done|].
    intros j. by rewrite decide_False by (intros Hj; inversion Hj).
  - cbn [app remove_from_dict_inplace]. unfold dict_pop.
    destruct (Hin j) as [v ->]; [by left|]. cbn [try_except].
    apply NoDup_cons in Hnd as [Hfresh Hnd].
    destruct (IH (delete j d)) as (d' & Hrun & Hlook); [done| | |].
    + intros j' Hj'. rewrite lookup_delete_ne by (by intros ->). apply Hin. by right.
    + destruct Hk as [Hk|[->|Hk]%elem_of_cons].
      * left. destruct (decide (j = k)) as [->|Hne];
          [apply lookup_delete_eq|by rewrite lookup_delete_ne].
      * left. apply lookup_delete_eq.
      * by right.
    + exists d'. split; [done|]. intros j'. rewrite Hlook.
      destruct (decide (j' ∈ pre)) as [Hj'|Hj'].
      * by rewrite decide_True by (by right).
      * destruct (decide (j = j')) as [->|Hne].
        -- rewrite lookup_delete_eq. by rewrite decide_True by (by left).
        -- rewrite lookup_delete_ne by done.
           rewrite decide_False; [done|]. by intros [->|?]%elem_of_cons.
Qed.

Lemma remove_from_dict_inplace_partial_witness :
  exists d',
    remove_from_dict_inplace (["a"] ++ "c" :: ["b"]) {[ "a" := PInt 1; "b" := PInt 2 ]}
    = (Raise (KeyError "c"), d')
    /\ forall j, d' !! j = if decide (j ∈ ["a"]) then None
                           else ({[ "a" := PInt 1; "b" := PInt 2 ]} : dict) !! j.
Proof.
  apply remove_from_dict_inplace_partial.
  - apply (bool_decide_unpack _). vm_compute. reflexivity.
  - intros j Hj.
    repeat (apply elem_of_cons in Hj as [->|Hj]); try (by inversion Hj);
      eexists; vm_compute; reflexivity.
  - left. reflexivity.
Defined.

(** *** get_creation_date *)

(** X4: the fields of the date are written without padding, so different
    creation dates can give the same string: 11 January and 1 November of a
    year, at the same time of day, both give [<year>111T...]. *)
Theorem get_creation_date_collision (H : Host) (p q : string) (tp tq : spec_float)
    (y h mi s : Z) :
  creation_timestamp H p = Ok tp ->
  creation_timestamp H q = Ok tq ->
  fromtimestamp H tp = Ok {| year := y; month := 1; day := 11;
                             hour := h; minute := mi; second := s |} ->
  fromtimestamp H tq = Ok {| year := y; month := 11; day := 1;
                             hour := h; minute := mi; second := s |} ->
  get_creation_date H p = get_creation_date H q
  /\ exists date, get_creation_date H p = Ok date.
Proof.
  intros Hp Hq Hdp Hdq. unfold get_creation_date. rewrite Hp, Hq, Hdp, Hdq.
  split; [|by eexists]. reflexivity.
Qed.

Lemma get_creation_date_collision_witness :
  get_creation_date sample_host "january.jpg" = get_creation_date sample_host "november.jpg"
  /\ exists date, get_creation_date sample_host "january.jpg" = Ok date.
Proof.
  apply (get_creation_date_collision sample_host "january.jpg" "november.jpg"
           (S754_finite false 1 0) (S754_finite false 2 0) 2021 5 6 7);
    reflexivity.
Defined.

(** *** Reading the video file *)

(** X5: for a readable file and a positive chunk size, [_bytes_from_file]
    yields [ceil(S/chunksize)] chunks whose concatenation is the file; no
    chunk is empty or longer than the chunk size, and every chunk but the
    last has exactly that size. With chunk size 0 it yields nothing. *)
Theorem bytes_from_file_chunks (E : Env) (filename : pyval) (chunksize : nat)
    (f : list Byte.byte) :
  open_rb E filename = Ok f ->
  (chunksize = 0 -> _bytes_from_file E filename chunksize = Ok [])
  /\ (0 < chunksize ->
      exists chunks,
        _bytes_from_file E filename chunksize = Ok chunks
        /\ concat chunks = f
        /\ List.length chunks = (List.length f + (chunksize - 1)) / chunksize
        /\ forall i chunk,
             chunks !! i = Some chunk ->
             0 < List.length chunk <= chunksize
             /\ (S i < List.length chunks -> List.length chunk = chunksize)).
Proof.
  intros Hopen. unfold _bytes_from_file. rewrite Hopen. split.
  - intros ->. by rewrite read_chunks_step.
  - intros Hn. eexists. split; [reflexivity|].
    split; [by apply read_chunks_concat|]. split; [by apply read_chunks_length|].
    intros i chunk Hi. pose proof Hi as Hi'.
    rewrite read_chunks_lookup in Hi' by done.
    destruct (decide (i * chunksize < List.length f)) as [Hlt|]; [|done].
    injection Hi' as <-. rewrite length_take, length_drop. split; [lia|].
    intros Hnext.
    destruct (lookup_lt_is_Some_2 (read_chunks chunksize f) (S i) Hnext) as [c Hc].
    rewrite read_chunks_lookup in Hc by done.
    destruct (decide (S i * chunksize < List.length f)); [lia|done].
Qed.

Lemma bytes_from_file_chunks_witness :
  (3 = 0 -> _bytes_from_file (sample_env friendly) (PStr "video.mp4") 3 = Ok [])
  /\ (0 < 3 ->
      exists chunks,
        _bytes_from_file (sample_env friendly) (PStr "video.mp4") 3 = Ok chunks
        /\ concat chunks = repeat Byte.x00 1500
        /\ List.length chunks = (List.length (repeat Byte.x00 1500) + (3 - 1)) / 3
        /\ forall i chunk,
             chunks !! i = Some chunk ->
             0 < List.length chunk <= 3
             /\ (S i < List.length chunks -> List.length chunk = 3)).
Proof.
  apply (bytes_from_file_chunks (sample_env friendly) (PStr "video.mp4") 3). reflexivity.
Defined.

(** *** What the methods send *)

Lemma issues_ret {S A : Type} (w : S -> State) (P : Request -> Prop) (a : A) :
  issues w P (ret a).
Proof. intros s. exists []. by rewrite app_nil_r. Qed.

Lemma issues_raise {S A : Type} (w : S -> State) (P : Request -> Prop) (e : exn) :
  issues w P (raise e : M S A).
Proof. intros s. exists []. by rewrite app_nil_r. Qed.

Lemma issues_lift {S A : Type} (w : S -> State) (P : Request -> Prop) (o : outcome A) :
  issues w P (lift o).
Proof. intros s. exists []. by rewrite app_nil_r. Qed.

Lemma issues_bind {S A B : Type} (w : S -> State) (P : Request -> Prop)
    (m : M S A) (k : A -> M S B) :
  issues w P m -> (forall a, issues w P (k a)) -> issues w P (bind m k).
Proof.
  intros Hm Hk s. unfold bind. destruct (Hm s) as (new1 & Ht1 & HP1).
  destruct (m s) as [[a|e] s1]; cbn [snd] in *.
  - destruct (Hk a s1) as (new2 & Ht2 & HP2). exists (new1 ++ new2).
    rewrite Ht2, Ht1, <- app_assoc. split; [done|]. by apply Forall_app.
  - by exists new1.
Qed.

Lemma issues_request (E : Env) (P : Request -> Prop) (r : Request) :
  P r -> issues id P (_request E r).
Proof. intros Hr s. exists [r]. split; [done|]. by constructor. Qed.

Lemma issues_draw {A : Type} (P : Request -> Prop) (source : nat -> A) :
  issues id P (draw source).
Proof. intros s. exists []. cbn. by rewrite app_nil_r. Qed.

Lemma issues_in_world {A : Type} (P : Request -> Prop) (m : M State A) :
  issues id P m -> issues world P (in_world m).
Proof.
  intros Hm [st o]. unfold in_world. cbn [world obj_now].
  destruct (Hm st) as (new & Ht & HP). exists new.
  by destruct (m st) as [a st1].
Qed.

Lemma issues_with_world {O A : Type} (P : Request -> Prop) (m : M State A) :
  issues id P m -> issues (@run_world O) P (with_world m).
Proof.
  intros Hm [st o]. unfold with_world. cbn [run_world run_obj].
  destruct (Hm st) as (new & Ht & HP). exists new.
  by destruct (m st) as [a st1].
Qed.

Lemma issues_weaken {S A : Type} (w : S -> State) (P Q : Request -> Prop) (m : M S A) :
  (forall r, P r -> Q r) -> issues w P m -> issues w Q m.
Proof.
  intros HPQ Hm s. destruct (Hm s) as (new & Ht & HP). exists new.
  split; [done|]. by eapply Forall_impl.
Qed.

(** Breaking a method into its steps. *)
Ltac issues_steps :=
  repeat lazymatch goal with
         | |- issues _ _ (bind _ _) => apply issues_bind; [|intros ?]
         | |- issues _ _ (ret _) => apply issues_ret
         | |- issues _ _ (raise _) => apply issues_raise
         | |- issues _ _ (lift _) => apply issues_lift
         | |- issues _ _ (draw _) => apply issues_draw
         | |- issues _ _ (match ?x with (_, _) => _ end) => destruct x
         | |- issues _ _ (if ?b then _ else _) => destruct b
         | |- issues _ _ (match ?x with Some _ => _ | None => _ end) => destruct x
         end.

Lemma transfer_chunks_issues (E : Env) (P : Request -> Prop) (hdrs : dict)
    (chunks : list (list Byte.byte)) (offset : Z) :
  (forall name, P (transfer_get_request hdrs name)) ->
  (forall name resp_headers o chunk,
      P (transfer_post_request E hdrs name resp_headers o chunk)) ->
  issues id P (transfer_chunks E hdrs chunks offset).
Proof.
  intros Hget Hpost. revert offset.
  induction chunks as [|chunk rest IH]; intros offset; cbn [transfer_chunks];
    issues_steps; try apply issues_request; try done.
Qed.

Lemma upload_image_issues (E : Env) (P : Request -> Prop)
    (path waterfall_id entity_length entity_name entity_type session_id upload_id : pyval)
    (quality : option Z) :
  (forall h content, P (upload_image_request E h content)) ->
  issues id P (_upload_image E path waterfall_id entity_length entity_name entity_type
                             session_id upload_id quality).
Proof.
  intros HP. unfold _upload_image. issues_steps. by apply issues_request.
Qed.

Lemma video_endpoint_not_configure (r : Request) :
  video_endpoint r ->
  endpoint r <> "media/configure/" /\ endpoint r <> "media/configure_to_story/".
Proof.
  intros [[name ->]|[[name ->]| ->]]; [| |by split].
  - assert (exists rest, "rupload_igvideo/" +:+ name = String "r" rest) as [rest ->]
      by (eexists; reflexivity).
    by split.
  - assert (exists rest, "https://i.instagram.com/rupload_igphoto/" +:+ name
                         = String "h" rest) as [rest ->]
      by (eexists; reflexivity).
    by split.
Qed.

Lemma upload_video_in_chunks_issues (E : Env) (obj : PostFeedVideo) :
  issues id (fun r => video_endpoint r /\ signed r = false) (_upload_video_in_chunks E obj).
Proof.
  unfold _upload_video_in_chunks. issues_steps.
  - apply issues_request. split; [|done]. left. by eexists.
  - apply transfer_chunks_issues.
    + intros name. split; [|done]. left. by eexists.
    + intros name resp_headers o chunk. split; [|done]. left. by eexists.
Qed.

Lemma upload_video_thumbnail_issues (E : Env) (obj : PostFeedVideo) (hdrs : dict) :
  issues id (fun r => video_endpoint r /\ signed r = false)
         (_upload_video_thumbnail E obj hdrs).
Proof.
  unfold _upload_video_thumbnail. issues_steps.
  - apply issues_request. split; [|done]. left. by eexists.
  - apply upload_image_issues. intros h content. split; [|done].
    right; left. by eexists.
Qed.

(** X6: whatever happens, a video publish sends nothing but unsigned
    requests to [rupload_igvideo/...], [rupload_igphoto/...] and
    [media/upload_finish/?video=1]; its configure step too goes to
    [media/upload_finish/?video=1], and no request ever goes to
    [media/configure/] or [media/configure_to_story/]. *)
Theorem post_video_endpoints (E : Env) (obj : PostFeedVideo) (st : State) :
  exists new,
    trace (post_video E obj st).2 = trace st ++ new
    /\ Forall (fun r => video_endpoint r /\ signed r = false
                        /\ endpoint r <> "media/configure/"
                        /\ endpoint r <> "media/configure_to_story/") new.
Proof.
  assert (issues id (fun r => video_endpoint r /\ signed r = false) (post_video E obj))
    as Hrun.
  { unfold post_video. issues_steps.
    - apply upload_video_in_chunks_issues.
    - apply upload_video_thumbnail_issues.
    - unfold _finish_video_upload. issues_steps.
      apply issues_request. split; [|done]. by right; right.
    - unfold _configure_video. issues_steps.
      apply issues_request. split; [|done]. by right; right. }
  destruct (Hrun st) as (new & Htrace & Hnew). exists new. split; [done|].
  eapply Forall_impl; [exact Hnew|]. intros r [Hr Hs].
  split; [done|]. split; [done|]. by apply video_endpoint_not_configure.
Qed.

(** Every run of [_upload_video_in_chunks], by cases. *)
Lemma upload_video_in_chunks_run (E : Env) (obj : PostFeedVideo) (st : State) :
  _upload_video_in_chunks E obj st
  = match py_int E (height obj) with
    | Raise e => (Raise e, st)
    | Ok h =>
      match py_int E (width obj) with
      | Raise e => (Raise e, st)
      | Ok w =>
        let start := start_request (video_rupload_params E obj h w) (uuid4 E (draws st)) in
        let st1 := {| trace := trace st ++ [start]; draws := S (draws st) |} in
        match transport E (trace st) start with
        | Raise e => (Raise e, st1)
        | Ok resp =>
          match json resp with
          | Raise e => (Raise e, st1)
          | Ok resp_json =>
            match py_getitem resp_json "stream_id" with
            | Raise e => (Raise e, st1)
            | Ok stream_id =>
              match open_rb E (path obj) with
              | Raise e => (Raise e, st1)
              | Ok f =>
                match transfer_chunks E {[ "stream_id" := stream_id ]}
                        (read_chunks 1024 f) 0 st1 with
                | (Ok _, st2) => (Ok {[ "stream_id" := stream_id ]}, st2)
                | (Raise e, st2) => (Raise e, st2)
                end
              end
            end
          end
        end
      end
    end.
Proof.
  unfold _upload_video_in_chunks, bind, lift, draw, _request, _bytes_from_file, ret.
  cbn [trace draws].
  destruct (py_int E (height obj)); [|done].
  destruct (py_int E (width obj)); [|done]. cbn zeta.
  destruct (transport E (trace st) _) as [resp|]; [|done].
  destruct (json resp) as [resp_json|]; [|done].
  destruct (py_getitem resp_json "stream_id"); [|done].
  destruct (open_rb E (path obj)); [|done].
  change (py_dict [("stream_id", a1)]) with ({[ "stream_id" := a1 ]} : dict).
  by destruct (transfer_chunks E _ _ 0 _) as [[?|?] ?].
Qed.

(** X7: a video of no bytes is uploaded by the Start request alone: no
    Transfer request is issued, and the method returns the stream-id header as
    soon as the provider has answered the Start request with one. *)
Theorem upload_empty_video (E : Env) (obj : PostFeedVideo) (st : State) (h w : Z)
    (resp : dict) (stream_id : pyval) :
  open_rb E (path obj) = Ok [] ->
  py_int E (height obj) = Ok h ->
  py_int E (width obj) = Ok w ->
  transport E (trace st)
    (start_request (video_rupload_params E obj h w) (uuid4 E (draws st)))
  = Ok {| json := Ok (PDict resp) |} ->
  resp !! "stream_id" = Some stream_id ->
  _upload_video_in_chunks E obj st
  = (Ok {[ "stream_id" := stream_id ]},
     {| trace := trace st
                 ++ [start_request (video_rupload_params E obj h w) (uuid4 E (draws st))];
        draws := S (draws st) |}).
Proof.
  intros Hopen Hh Hw Hstart Hsid.
  rewrite upload_video_in_chunks_run, Hh, Hw. cbn zeta. rewrite Hstart.
  cbn [json py_getitem]. rewrite Hsid, Hopen. by rewrite read_chunks_nil.
Qed.

(** X8: how a chunked upload fails. Dimensions that [int] rejects raise
    before any request. Once the Start request is out, a Start response
    without [stream_id] raises [KeyError], and a video file that cannot be
    opened raises the error of [open]: in both cases the Start request has
    been issued and nothing follows it. *)
Theorem upload_video_in_chunks_failures (E : Env) (obj : PostFeedVideo) (st : State) :
  (forall e, py_int E (height obj) = Raise e ->
             _upload_video_in_chunks E obj st = (Raise e, st))
  /\ (forall h e, py_int E (height obj) = Ok h -> py_int E (width obj) = Raise e ->
                  _upload_video_in_chunks E obj st = (Raise e, st))
  /\ (forall h w,
        py_int E (height obj) = Ok h -> py_int E (width obj) = Ok w ->
        let start := start_request (video_rupload_params E obj h w) (uuid4 E (draws st)) in
        let st1 := {| trace := trace st ++ [start]; draws := S (draws st) |} in
        (forall resp,
            transport E (trace st) start = Ok {| json := Ok (PDict resp) |} ->
            resp !! "stream_id" = None ->
            _upload_video_in_chunks E obj st = (Raise (KeyError "stream_id"), st1))
        /\ (forall resp stream_id e,
              transport E (trace st) start = Ok {| json := Ok (PDict resp) |} ->
              resp !! "stream_id" = Some stream_id ->
              open_rb E (path obj) = Raise e ->
              _upload_video_in_chunks E obj st = (Raise e, st1))).
Proof.
  split; [|split].
  - intros e Hh. by rewrite upload_video_in_chunks_run, Hh.
  - intros h e Hh Hw. by rewrite upload_video_in_chunks_run, Hh, Hw.
  - intros h w Hh Hw. cbn zeta. split.
    + intros resp Hstart Hsid.
      rewrite upload_video_in_chunks_run, Hh, Hw. cbn zeta. rewrite Hstart.
      cbn [json py_getitem]. by rewrite Hsid.
    + intros resp sid e Hstart Hsid Hopen.
      rewrite upload_video_in_chunks_run, Hh, Hw. cbn zeta. rewrite Hstart.
      cbn [json py_getitem]. by rewrite Hsid, Hopen.
Qed.

(** *** The thumbnail and the image upload *)

(** X9: when [_upload_video_thumbnail] returns, the image it uploaded is the
    whole thumbnail file, named by the entity name of the End request, with
    the file size in decimal as [x-entity-length] and [image/jpg] or
    [image/jpeg] as [x-entity-type]; its upload id is the clock reading
    taken for this upload, not the upload id of the video. *)
Theorem upload_video_thumbnail_image (E : Env) (obj : PostFeedVideo) (hdrs : dict)
    (st st' : State) :
  _upload_video_thumbnail E obj hdrs st = (Ok tt, st') ->
  exists f img h,
    open_rb E (fspath (thumbnail_path obj)) = Ok f
    /\ trace st' = trace st ++ [end_request (uuid4 E (draws st)) hdrs; img]
    /\ endpoint img = "https://i.instagram.com/rupload_igphoto/" +:+ uuid4 E (draws st)
    /\ method img = POST
    /\ data img = DataBytes f
    /\ headers img = Some h
    /\ h !! "x-entity-name" = Some (PStr (uuid4 E (draws st)))
    /\ h !! "x-entity-length" = Some (PStr (str_of_int (Z.of_nat (List.length f))))
    /\ (h !! "x-entity-type" = Some (PStr "image/jpg")
        \/ h !! "x-entity-type" = Some (PStr "image/jpeg"))
    /\ h !! "x-instagram-rupload-params"
       = Some (PStr (json_dumps E (PDict (build_default_rupload_params E
                        (PStr (time_str E (S (S (draws st))))) 70))))
    /\ build_default_rupload_params E (PStr (time_str E (S (S (draws st))))) 70
         !! "upload_id"
       = Some (PStr (time_str E (S (S (draws st))))).
Proof.
  intros (f & Hf & Hjpg & ->)%upload_video_thumbnail_Ok.
  exists f, (thumbnail_upload_request E obj (draws st) f). eexists.
  split; [done|]. split; [done|]. split; [reflexivity|]. split; [done|].
  split; [done|]. split; [reflexivity|]. split; [reflexivity|].
  split; [reflexivity|]. split; [|split; reflexivity].
  unfold not_jpeg in Hjpg. apply negb_false_iff, orb_true_iff in Hjpg.
  destruct Hjpg as [Heq|Heq]; apply String.eqb_eq in Heq.
  - left. cbn [thumbnail_upload_request upload_image_request headers].
    unfold upload_image_headers. rewrite Heq. reflexivity.
  - right. cbn [thumbnail_upload_request upload_image_request headers].
    unfold upload_image_headers. rewrite Heq. reflexivity.
Qed.

Lemma upload_video_thumbnail_image_witness :
  exists f img h,
    open_rb (sample_env friendly) (fspath (thumbnail_path sample_video)) = Ok f
    /\ trace (_upload_video_thumbnail (sample_env friendly) sample_video ∅ initial).2
       = trace initial ++ [end_request (uuid4 (sample_env friendly) (draws initial)) ∅; img]
    /\ endpoint img = "https://i.instagram.com/rupload_igphoto/"
                      +:+ uuid4 (sample_env friendly) (draws initial)
    /\ method img = POST
    /\ data img = DataBytes f
    /\ headers img = Some h
    /\ h !! "x-entity-name" = Some (PStr (uuid4 (sample_env friendly) (draws initial)))
    /\ h !! "x-entity-length" = Some (PStr (str_of_int (Z.of_nat (List.length f))))
    /\ (h !! "x-entity-type" = Some (PStr "image/jpg")
        \/ h !! "x-entity-type" = Some (PStr "image/jpeg"))
    /\ h !! "x-instagram-rupload-params"
       = Some (PStr (json_dumps (sample_env friendly)
                 (PDict (build_default_rupload_params (sample_env friendly)
                    (PStr (time_str (sample_env friendly) (S (S (draws initial))))) 70))))
    /\ build_default_rupload_params (sample_env friendly)
         (PStr (time_str (sample_env friendly) (S (S (draws initial))))) 70
         !! "upload_id"
       = Some (PStr (time_str (sample_env friendly) (S (S (draws initial))))).
Proof.
  apply (upload_video_thumbnail_image (sample_env friendly) sample_video ∅ initial).
  vm_compute. reflexivity.
Defined.

(** X10: a quality other than 0 is sent as it is, whatever its range: the
    upload parameters of [_upload_image] are built with that quality and
    describe it by its decimal numeral, without clamping to 1..100. *)
Theorem upload_image_quality_passthrough (E : Env)
    (path waterfall_id entity_length entity_name entity_type session_id upload_id : pyval)
    (q : Z) (st : State) (content : list Byte.byte) :
  q <> 0%Z ->
  open_rb E path = Ok content ->
  exists req h,
    (_upload_image E path waterfall_id entity_length entity_name entity_type
                   session_id upload_id (Some q) st).2
    = {| trace := trace st ++ [req]; draws := draws st |}
    /\ headers req = Some h
    /\ h !! "x-instagram-rupload-params"
       = Some (PStr (json_dumps E (PDict (build_default_rupload_params E upload_id q))))
    /\ build_default_rupload_params E upload_id q !! "image_compression"
       = Some (PStr (json_dumps E (PDict {[ "lib_name" := PStr "moz";
                                            "lib_version" := PStr "3.1.m";
                                            "quality" := PStr (str_of_int q) ]}))).
Proof.
  intros Hq Hopen. rewrite upload_image_run, Hopen. cbn zeta.
  eexists _, _. split; [reflexivity|]. split; [reflexivity|].
  unfold upload_image_headers. rewrite (quality_or_truthy _ _ Hq).
  split; reflexivity.
Qed.

Lemma upload_image_quality_passthrough_witness :
  exists req h,
    (_upload_image (sample_env friendly) (PStr "photo.jpg") (PStr "w") (PInt 1)
                   (PStr "e1") (PStr "image/jpeg") (PStr "session") (PStr "77")
                   (Some 1000%Z) initial).2
    = {| trace := trace initial ++ [req]; draws := draws initial |}
    /\ headers req = Some h
    /\ h !! "x-instagram-rupload-params"
       = Some (PStr (json_dumps (sample_env friendly)
                       (PDict (build_default_rupload_params (sample_env friendly)
                                 (PStr "77") 1000))))
    /\ build_default_rupload_params (sample_env friendly) (PStr "77") 1000
         !! "image_compression"
       = Some (PStr (json_dumps (sample_env friendly)
                       (PDict {[ "lib_name" := PStr "moz";
                                 "lib_version" := PStr "3.1.m";
                                 "quality" := PStr (str_of_int 1000) ]}))).
Proof.
  apply (upload_image_quality_passthrough (sample_env friendly) (PStr "photo.jpg")
           (PStr "w") (PInt 1) (PStr "e1") (PStr "image/jpeg") (PStr "session")
           (PStr "77") 1000 initial [Byte.x01]).
  - discriminate.
  - reflexivity.
Defined.

(** *** The image publish: payload, object and failures *)

Lemma dict_pop_Ok (k : string) (d d' : dict) (v : pyval) :
  dict_pop k d = Ok (v, d') -> d !! k = Some v /\ d' = delete k d.
Proof. unfold dict_pop. destruct (d !! k); [|done]. by intros [= -> ->]. Qed.

Lemma dict_pop_five (d d1 d2 d3 d4 d5 : dict) (v1 v2 v3 v4 v5 : pyval) :
  dict_pop "image_path" d = Ok (v1, d1) ->
  dict_pop "x_fb_waterfall_id" d1 = Ok (v2, d2) ->
  dict_pop "entity_length" d2 = Ok (v3, d3) ->
  dict_pop "entity_name" d3 = Ok (v4, d4) ->
  dict_pop "entity_type" d4 = Ok (v5, d5) ->
  (forall k, k ∈ popped_keys -> is_Some (d !! k))
  /\ (forall k, d5 !! k = if decide (k ∈ popped_keys) then None else d !! k).
Proof.
  intros H1 H2 H3 H4 H5.
  assert (remove_from_dict d popped_keys = Ok d5) as Hrm.
  { apply dict_pop_Ok in H1 as [H1 ->]. apply dict_pop_Ok in H2 as [H2 ->].
    apply dict_pop_Ok in H3 as [H3 ->]. apply dict_pop_Ok in H4 as [H4 ->].
    apply dict_pop_Ok in H5 as [H5 ->]. unfold popped_keys.
    by rewrite remove_from_dict_cons, H1, remove_from_dict_cons, H2,
      remove_from_dict_cons, H3, remove_from_dict_cons, H4, remove_from_dict_cons, H5. }
  by apply remove_from_dict_Ok_inv in Hrm as (_ & ? & ?).
Qed.

(** What the upload part of [post_post] leaves behind when it returns. *)
Lemma post_post_upload_Ok (E : Env) (quality : option Z) (st : State) (obj : Post)
    (payload : dict) (run' : PostRun) :
  post_post_upload E quality {| world := st; obj_now := obj |} = (Ok payload, run') ->
  (forall k, k ∈ popped_keys -> is_Some (post_to_dict E obj !! k))
  /\ (forall k, k <> "location" ->
                payload !! k = if decide (k ∈ popped_keys) then None
                               else post_to_dict E obj !! k)
  /\ source_type (obj_now run') = source_type obj
  /\ upload_id (obj_now run') = upload_id obj
  /\ is_Some (device (obj_now run'))
  /\ (forall d, device obj = Some d -> device (obj_now run') = Some d)
  /\ (device obj = None ->
      exists sdk,
        py_int E (android_sdk_version (device_profile E)) = Ok sdk
        /\ device (obj_now run')
           = Some {| dev_manufacturer := manufacturer (device_profile E);
                     dev_model := model (device_profile E);
                     dev_android_sdk_version := sdk;
                     dev_android_release := android_release (device_profile E) |})
  /\ match location obj with
     | None =>
         location (obj_now run') = None
         /\ payload !! "location" = post_to_dict E obj !! "location"
     | Some loc =>
         exists loc',
           location (obj_now run') = Some loc'
           /\ payload !! "location"
              = Some (PStr (json_dumps E (PDict (Location_dict loc'))))
           /\ lat loc' = lat loc /\ lng loc' = lng loc /\ name loc' = name loc
           /\ other_attrs loc' = other_attrs loc
           /\ if py_truthy (facebook_places_id loc) then loc' = loc
              else exists places_id st1,
                     (_request_fb_places_id E loc st1).1 = Ok places_id
                     /\ facebook_places_id loc' = PStr places_id
     end.
Proof.
  unfold post_post_upload, bind, in_world, get_obj, set_obj, lift, ret, raise.
  cbn [world obj_now].
  destruct obj as [dev [loc|] src uid]; destruct dev as [dev|].
  all: repeat match goal with
         | _ => progress cbn [world obj_now source_type location device upload_id negb]
         | |- context [py_int ?E ?v] => destruct (py_int E v) eqn:?
         | |- context [dict_pop ?k ?d] => destruct (dict_pop k d) as [[? ?]|] eqn:?
         | |- context [_upload_image ?E ?a ?b ?c ?d ?e ?f ?g ?q ?w] =>
             destruct (_upload_image E a b c d e f g q w) as [[?|?] ?]
         | |- context [py_truthy ?v] => destruct (py_truthy v) eqn:?
         | |- context [_request_fb_places_id ?E ?l ?w] =>
             destruct (_request_fb_places_id E l w) as [[?|?] ?] eqn:?
         end.
  all: intros [= <- <-].
  all: match goal with
       | H1 : dict_pop "image_path" _ = _, H2 : dict_pop "x_fb_waterfall_id" _ = _,
         H3 : dict_pop "entity_length" _ = _, H4 : dict_pop "entity_name" _ = _,
         H5 : dict_pop "entity_type" _ = _ |- _ =>
           destruct (dict_pop_five _ _ _ _ _ _ _ _ _ _ _ H1 H2 H3 H4 H5) as [Hin Hlook]
       end.
  all: cbn [world obj_now source_type location device upload_id].
  all: split; [exact Hin|].
  all: split; [intros k Hk; rewrite ?lookup_insert_ne by done; apply Hlook|].
  all: split; [done|]. all: split; [done|]. all: split; [by eexists|].
  all: split; [by intros ? [= <-] || done|].
  all: split; [first [by intros [=] | intros _; eexists; split; reflexivity]|].
  all: try (split; [done|]; rewrite Hlook; by rewrite decide_False by
              (intros Hk; repeat (apply elem_of_cons in Hk as [?|Hk]); try done;
               by inversion Hk)).
  all: eexists; split; [reflexivity|]; rewrite lookup_insert_eq; split; [done|].
  all: repeat (split; [done|]).
  all: first [ done | eexists _, _; split; [|reflexivity];
                      match goal with H : _request_fb_places_id _ _ _ = _ |- _ =>
                        by rewrite H end ].
Qed.

Lemma post_post_Ok (E : Env) (quality : option Z) (st : State) (obj : Post)
    (r : Response) (run' : PostRun) :
  post_post E quality {| world := st; obj_now := obj |} = (Ok r, run') ->
  exists payload run1 target,
    post_post_upload E quality {| world := st; obj_now := obj |} = (Ok payload, run1)
    /\ obj_now run' = obj_now run1
    /\ trace (world run') = trace (world run1) ++ [configure_request E target payload].
Proof.
  rewrite post_post_split.
  destruct (post_post_upload E quality _) as [[payload|e] run1]; [|done].
  unfold in_world, _request.
  destruct (_ =? Feed_value E)%Z; [|destruct (_ =? Story_value E)%Z; [|done]].
  - destruct (transport E _ _); intros [= _ <-]. by eexists _, _, _.
  - destruct (transport E _ _); intros [= _ <-]. by eexists _, _, _.
Qed.

(** X11: the configure payload of a publish that returns is the serialized
    post without the five fields handed to the image upload ([image_path],
    [x_fb_waterfall_id], [entity_length], [entity_name], [entity_type]) and
    with every other field unchanged, except that for a post with a location
    the [location] field is the JSON of that location as the object holds
    it after the call. *)
Theorem post_post_payload (E : Env) (quality : option Z) (st : State) (obj : Post)
    (r : Response) (run' : PostRun) :
  post_post E quality {| world := st; obj_now := obj |} = (Ok r, run') ->
  exists target payload,
    last (trace (world run')) = Some (configure_request E target payload)
    /\ (forall k, k ∈ popped_keys -> payload !! k = None)
    /\ (forall k, k ∉ popped_keys -> k <> "location" ->
                  payload !! k = post_to_dict E obj !! k)
    /\ payload !! "location"
       = match location (obj_now run') with
         | Some loc => Some (PStr (json_dumps E (PDict (Location_dict loc))))
         | None => post_to_dict E obj !! "location"
         end.
Proof.
  intros (payload & run1 & target & Hup & Hobj & Htrace)%post_post_Ok.
  apply post_post_upload_Ok in Hup as (_ & Hlook & _ & _ & _ & _ & _ & Hloc).
  exists target, payload. rewrite Htrace, last_snoc, Hobj. split; [done|].
  split.
  { intros k Hk. rewrite Hlook; [by rewrite decide_True|].
    intros ->. repeat (apply elem_of_cons in Hk as [?|Hk]); try done. by inversion Hk. }
  split.
  { intros k Hk Hne. by rewrite Hlook, decide_False. }
  destruct (location obj) as [loc|].
  - by destruct Hloc as (loc' & -> & -> & _).
  - by destruct Hloc as [-> ->].
Qed.

Lemma post_post_payload_witness :
  exists target payload,
    last (trace (world (post_post (sample_env friendly) None
                          {| world := initial; obj_now := sample_post_at_place |}).2))
    = Some (configure_request (sample_env friendly) target payload)
    /\ (forall k, k ∈ popped_keys -> payload !! k = None)
    /\ (forall k, k ∉ popped_keys -> k <> "location" ->
                  payload !! k = post_to_dict (sample_env friendly) sample_post_at_place !! k)
    /\ payload !! "location"
       = match location (obj_now (post_post (sample_env friendly) None
                           {| world := initial; obj_now := sample_post_at_place |}).2) with
         | Some loc => Some (PStr (json_dumps (sample_env friendly)
                                     (PDict (Location_dict loc))))
         | None => post_to_dict (sample_env friendly) sample_post_at_place !! "location"
         end.
Proof.
  apply (post_post_payload (sample_env friendly) None initial sample_post_at_place
           friendly_response).
  vm_compute. reflexivity.
Defined.

(** X12: a publish that returns has updated the caller's object in place
    and nowhere else: a missing device descriptor is filled from the device
    profile (a given one is kept), a location without a places id has
    received the identifier that the location search resolved (one with an
    id is left as it was), and the target location and the upload id are
    unchanged. *)
Theorem post_post_updates_object (E : Env) (quality : option Z) (st : State) (obj : Post)
    (r : Response) (run' : PostRun) :
  post_post E quality {| world := st; obj_now := obj |} = (Ok r, run') ->
  source_type (obj_now run') = source_type obj
  /\ upload_id (obj_now run') = upload_id obj
  /\ (forall d, device obj = Some d -> device (obj_now run') = Some d)
  /\ (device obj = None ->
      exists sdk,
        py_int E (android_sdk_version (device_profile E)) = Ok sdk
        /\ device (obj_now run')
           = Some {| dev_manufacturer := manufacturer (device_profile E);
                     dev_model := model (device_profile E);
                     dev_android_sdk_version := sdk;
                     dev_android_release := android_release (device_profile E) |})
  /\ match location obj with
     | None => location (obj_now run') = None
     | Some loc =>
         if py_truthy (facebook_places_id loc) then location (obj_now run') = Some loc
         else exists places_id st1,
                (_request_fb_places_id E loc st1).1 = Ok places_id
                /\ location (obj_now run')
                   = Some {| lat := lat loc; lng := lng loc; name := name loc;
                             facebook_places_id := PStr places_id;
                             other_attrs := other_attrs loc |}
     end.
Proof.
  intros (payload & run1 & target & Hup & -> & _)%post_post_Ok.
  apply post_post_upload_Ok in Hup as (_ & _ & Hsrc & Huid & _ & Hdev & Hprof & Hloc).
  repeat (split; [done|]).
  destruct (location obj) as [loc|]; [|by destruct Hloc].
  destruct Hloc as (loc' & -> & _ & Hlat & Hlng & Hname & Hother & Hid).
  destruct (py_truthy (facebook_places_id loc)); [by rewrite Hid|].
  destruct Hid as (places_id & st1 & Hrun & Hid). exists places_id, st1.
  split; [done|]. destruct loc'. cbn in *. by subst.
Qed.

Lemma post_post_updates_object_witness :
  location (obj_now (post_post (sample_env friendly) None
                       {| world := initial; obj_now := sample_post_at_place |}).2)
  = Some {| lat := PNone; lng := PNone; name := PStr "Utrecht";
            facebook_places_id := PStr "123"; other_attrs := ∅ |}.
Proof.
  destruct (post_post_updates_object (sample_env friendly) None initial
              sample_post_at_place friendly_response
              (post_post (sample_env friendly) None
                 {| world := initial; obj_now := sample_post_at_place |}).2)
    as (_ & _ & _ & _ & Hloc).
  - vm_compute. reflexivity.
  - cbn [location sample_post_at_place] in Hloc.
    change (py_truthy (facebook_places_id sample_place)) with false in Hloc.
    destruct Hloc as (places_id & st1 & _ & Hloc). rewrite Hloc.
    vm_compute in Hloc. injection Hloc as <-. reflexivity.
Defined.

(** The cases of a run of the upload part of [post_post]. *)
Ltac post_post_upload_cases :=
  unfold post_post_upload, bind, in_world, get_obj, set_obj, lift, ret, raise;
  cbn [world obj_now];
  repeat match goal with
         | _ => progress cbn [world obj_now source_type location device upload_id negb]
         | |- context [py_int ?E ?v] => destruct (py_int E v) eqn:?
         | |- context [dict_pop ?k ?d] => destruct (dict_pop k d) as [[? ?]|] eqn:?
         | |- context [_upload_image ?E ?a ?b ?c ?d ?e ?f ?g ?q ?w] =>
             rewrite (upload_image_run E a b c d e f g q w); cbn zeta
         | |- context [open_rb ?E ?v] => destruct (open_rb E v) eqn:?
         | |- context [transport ?E ?t ?r] => destruct (transport E t r) eqn:?
         | |- context [py_truthy ?v] => destruct (py_truthy v) eqn:?
         end.

Lemma post_post_upload_fails_early (E : Env) (quality : option Z) (st : State) (obj : Post) :
  (exists k, k ∈ popped_keys /\ post_to_dict E obj !! k = None)
  \/ (exists p e, post_to_dict E obj !! "image_path" = Some p /\ open_rb E p = Raise e)
  \/ (exists e, device obj = None
                /\ py_int E (android_sdk_version (device_profile E)) = Raise e) ->
  exists e run',
    post_post_upload E quality {| world := st; obj_now := obj |} = (Raise e, run')
    /\ world run' = st.
Proof.
  intros Hearly. destruct obj as [dev loc src uid]; destruct dev as [dev|];
    destruct loc as [loc|].
  all: post_post_upload_cases.
  all: try (by eexists _, _).
  all: exfalso.
  all: match goal with
       | H1 : dict_pop "image_path" _ = _, H2 : dict_pop "x_fb_waterfall_id" _ = _,
         H3 : dict_pop "entity_length" _ = _, H4 : dict_pop "entity_name" _ = _,
         H5 : dict_pop "entity_type" _ = _ |- _ =>
           destruct (dict_pop_five _ _ _ _ _ _ _ _ _ _ _ H1 H2 H3 H4 H5) as [Hin _];
           apply dict_pop_Ok in H1 as [H1 _]
       end.
  all: destruct Hearly as [(k & Hk & Hnone)|[(p' & e' & Hp & Hopen)|(e' & Hdev & Hint)]].
  all: try (destruct (Hin k Hk) as [? ?]; congruence).
  all: try congruence.
  all: cbn [device] in *; congruence.
Qed.

(** X13: a publish whose serialized post lacks one of the five upload
    fields, whose image file cannot be opened, or whose device descriptor is
    missing while the profile's SDK version is no integer, raises before
    anything is sent: no request is issued and no draw is made. *)
Theorem post_post_fails_before_upload (E : Env) (quality : option Z) (st : State)
    (obj : Post) :
  (exists k, k ∈ popped_keys /\ post_to_dict E obj !! k = None)
  \/ (exists p e, post_to_dict E obj !! "image_path" = Some p /\ open_rb E p = Raise e)
  \/ (exists e, device obj = None
                /\ py_int E (android_sdk_version (device_profile E)) = Raise e) ->
  exists e run',
    post_post E quality {| world := st; obj_now := obj |} = (Raise e, run')
    /\ world run' = st.
Proof.
  intros (e & run' & Hrun & Hst)%(post_post_upload_fails_early E quality st obj).
  exists e, run'. by rewrite post_post_split, Hrun.
Qed.

Lemma post_post_fails_before_upload_witness :
  exists e run',
    post_post unreadable_env None {| world := initial; obj_now := sample_post |}
    = (Raise e, run')
    /\ world run' = initial.
Proof.
  apply (post_post_fails_before_upload unreadable_env None initial sample_post).
  right; left. exists (PStr "photo.jpg"), (OSError 2). split; reflexivity.
Defined.

Lemma post_post_upload_invalid_location (E : Env) (quality : option Z) (st : State)
    (obj : Post) (loc : Location) :
  location obj = Some loc ->
  py_truthy (facebook_places_id loc) = false ->
  (py_is_none (lat loc) || py_is_none (lng loc)) && py_is_none (name loc) = true ->
  exists e run',
    post_post_upload E quality {| world := st; obj_now := obj |} = (Raise e, run')
    /\ (world run' = st
        \/ exists h content,
             trace (world run') = trace st ++ [upload_image_request E h content]
             /\ forall resp,
                  transport E (trace st) (upload_image_request E h content) = Ok resp ->
                  e = ValueError
                        "Atleast a lat/lng combination or name needs to be specified.").
Proof.
  intros Hloc Hid Hinvalid. destruct obj as [dev loc0 src uid]. cbn in Hloc. subst loc0.
  destruct dev as [dev|].
  all: post_post_upload_cases.
  all: try congruence.
  all: try (eexists _, _; split; [reflexivity|]; by left).
  all: try (eexists _, _; split; [reflexivity|]; right; eexists _, _;
            split; [reflexivity|]; intros resp Hresp; congruence).
  all: rewrite (request_fb_places_id_invalid E loc _ Hinvalid).
  all: eexists _, _; split; [reflexivity|]; right; eexists _, _;
       split; [reflexivity|]; by intros resp Hresp.
Qed.

(** X14: in [post_post] the location is validated only after the image has
    gone out. A post whose location has no places id, no lat/lng
    combination and no name never publishes: either the publish fails before
    the upload, or the image upload is the one request sent and, once it is
    answered, [ValueError] is raised. *)
Theorem post_post_location_checked_late (E : Env) (quality : option Z) (st : State)
    (obj : Post) (loc : Location) :
  location obj = Some loc ->
  py_truthy (facebook_places_id loc) = false ->
  (py_is_none (lat loc) || py_is_none (lng loc)) && py_is_none (name loc) = true ->
  exists e run',
    post_post E quality {| world := st; obj_now := obj |} = (Raise e, run')
    /\ (world run' = st
        \/ exists h content,
             trace (world run') = trace st ++ [upload_image_request E h content]
             /\ forall resp,
                  transport E (trace st) (upload_image_request E h content) = Ok resp ->
                  e = ValueError
                        "Atleast a lat/lng combination or name needs to be specified.").
Proof.
  intros Hloc Hid Hinvalid.
  destruct (post_post_upload_invalid_location E quality st obj loc Hloc Hid Hinvalid)
    as (e & run' & Hrun & Hshape).
  exists e, run'. by rewrite post_post_split, Hrun.
Qed.

Lemma post_post_location_checked_late_witness :
  exists e run',
    post_post (sample_env friendly) None
      {| world := initial; obj_now := sample_post_nowhere |} = (Raise e, run')
    /\ (world run' = initial
        \/ exists h content,
             trace (world run')
             = trace initial ++ [upload_image_request (sample_env friendly) h content]
             /\ forall resp,
                  transport (sample_env friendly) (trace initial)
                    (upload_image_request (sample_env friendly) h content) = Ok resp ->
                  e = ValueError
                        "Atleast a lat/lng combination or name needs to be specified.").
Proof.
  apply (post_post_location_checked_late (sample_env friendly) None initial
           sample_post_nowhere sample_nowhere); reflexivity.
Defined.

(** *** Location resolution: failures and names *)

(** X15: what [_request_fb_places_id] raises on a malformed answer to its one
    request: [KeyError] when [status] is missing, when [venues] is missing
    from an ["ok"] answer, or when the first venue has no [external_id];
    [IndexError] when the venue list is empty; [TypeError] when the decoded
    answer is no JSON object. None of these is [BadResponse]. *)
Theorem request_fb_places_id_malformed (E : Env) (obj : Location) (st : State)
    (as_json : pyval) :
  (py_is_none (lat obj) || py_is_none (lng obj)) && py_is_none (name obj) = false ->
  transport E (trace st) (location_search_request E obj (draws st))
    = Ok {| json := Ok as_json |} ->
  trace (_request_fb_places_id E obj st).2
    = trace st ++ [location_search_request E obj (draws st)]
  /\ ((forall d, as_json <> PDict d) ->
      (_request_fb_places_id E obj st).1 = Raise TypeError)
  /\ (forall d, as_json = PDict d ->
      (d !! "status" = None ->
         (_request_fb_places_id E obj st).1 = Raise (KeyError "status"))
      /\ (d !! "status" = Some (PStr "ok") ->
          (d !! "venues" = None ->
             (_request_fb_places_id E obj st).1 = Raise (KeyError "venues"))
          /\ (d !! "venues" = Some (PList []) ->
              (_request_fb_places_id E obj st).1 = Raise IndexError)
          /\ (forall venue rest,
                d !! "venues" = Some (PList (PDict venue :: rest)) ->
                venue !! "external_id" = None ->
                (_request_fb_places_id E obj st).1 = Raise (KeyError "external_id")))).
Proof.
  intros Hvalid Hresp.
  destruct (request_fb_places_id_search E obj st Hvalid) as [n Hrun].
  cbn zeta in Hrun. rewrite Hrun. clear Hrun.
  unfold bind, lift, raise, ret. rewrite Hresp. cbn [json].
  split; [by outcome_cases|]. split.
  - intros Hnd. destruct as_json; try done. by destruct (Hnd d).
  - intros d ->. cbn [py_getitem]. split.
    + by intros ->.
    + intros ->. cbn. split; [by intros ->|]. split; [by intros ->|].
      intros venue rest -> Hext. cbn. by rewrite Hext.
Qed.

Lemma request_fb_places_id_malformed_witness :
  (_request_fb_places_id (sample_env no_venues) sample_place initial).1 = Raise IndexError.
Proof.
  destruct (request_fb_places_id_malformed (sample_env no_venues) sample_place initial
              (PDict (py_dict [("status", PStr "ok"); ("venues", PList [])])))
    as (_ & _ & Hdict); [reflexivity|reflexivity|].
  destruct (Hdict _ eq_refl) as (_ & Hok).
  destruct (Hok eq_refl) as (_ & Hempty & _). by apply Hempty.
Defined.

(** X16: only a name that is [None] counts as missing. With an empty string
    as name and no lat/lng combination the search is still issued, for the
    empty text; with both coordinates the empty name is left out of the
    query, which then holds the latitude and the longitude only. *)
Theorem request_fb_places_id_empty_name (E : Env) (obj : Location) (st : State) :
  name obj = PStr "" ->
  trace (_request_fb_places_id E obj st).2
    = trace st ++ [location_search_request E obj (draws st)]
  /\ query (location_search_request E obj (draws st))
     = Some (if py_is_none (lat obj) || py_is_none (lng obj)
             then {[ "search_query" := PStr ""; "rankToken" := gen_uuid E (draws st) ]}
             else {[ "latitude" := lat obj; "longitude" := lng obj ]}).
Proof.
  intros Hname.
  assert ((py_is_none (lat obj) || py_is_none (lng obj)) && py_is_none (name obj) = false)
    as Hvalid by (rewrite Hname; apply andb_false_r).
  split.
  { destruct (request_fb_places_id_search E obj st Hvalid) as [n Hrun].
    cbn zeta in Hrun. rewrite Hrun. unfold bind, lift, raise, ret. by outcome_cases. }
  cbn [location_search_request query]. unfold location_query.
  rewrite Hname. by destruct (py_is_none (lat obj) || py_is_none (lng obj)).
Qed.

Lemma request_fb_places_id_empty_name_witness :
  trace (_request_fb_places_id (sample_env friendly)
           {| lat := PNone; lng := PNone; name := PStr "";
              facebook_places_id := PNone; other_attrs := ∅ |} initial).2
    = trace initial
      ++ [location_search_request (sample_env friendly)
            {| lat := PNone; lng := PNone; name := PStr "";
               facebook_places_id := PNone; other_attrs := ∅ |} (draws initial)]
  /\ query (location_search_request (sample_env friendly)
             {| lat := PNone; lng := PNone; name := PStr "";
                facebook_places_id := PNone; other_attrs := ∅ |} (draws initial))
     = Some (if py_is_none PNone || py_is_none PNone
             then {[ "search_query" := PStr "";
                     "rankToken" := gen_uuid (sample_env friendly) (draws initial) ]}
             else {[ "latitude" := PNone; "longitude" := PNone ]}).
Proof.
  apply (request_fb_places_id_empty_name (sample_env friendly)
           {| lat := PNone; lng := PNone; name := PStr "";
              facebook_places_id := PNone; other_attrs := ∅ |} initial).
  reflexivity.
Defined.

(** *** Likes, saves and comments *)

(** Every run of [_post_act], by cases. *)
Lemma post_act_run (E : Env) (st : State) (obj : PyObject) :
  _post_act E {| run_world := st; run_obj := obj |}
  = match py_getattr obj "feed_position" with
    | Raise e => (Raise e, {| run_world := st; run_obj := obj |})
    | Ok feed_position =>
      match (if py_is_none feed_position then py_delattr obj "feed_position"
             else Ok obj) with
      | Raise e => (Raise e, {| run_world := st; run_obj := obj |})
      | Ok obj' =>
        match py_getattr obj' "media_id" with
        | Raise e => (Raise e, {| run_world := st; run_obj := obj' |})
        | Ok media_id =>
          match py_getattr obj' "action" with
          | Raise e => (Raise e, {| run_world := st; run_obj := obj' |})
          | Ok action =>
              let req := post_act_request E media_id action (inst_attrs obj') in
              (transport E (trace st) req,
               {| run_world := {| trace := trace st ++ [req]; draws := draws st |};
                  run_obj := obj' |})
          end
        end
      end
    end.
Proof.
  unfold _post_act, bind, this, update, lift, ret, with_world, _request.
  cbn [run_world run_obj].
  destruct (py_getattr obj "feed_position") as [fp|]; [|done].
  destruct (py_is_none fp).
  - destruct (py_delattr obj "feed_position") as [obj'|]; [|done]. cbn [run_obj run_world].
    destruct (py_getattr obj' "media_id"); [|done].
    by destruct (py_getattr obj' "action").
  - cbn [run_obj run_world]. destruct (py_getattr obj "media_id"); [|done].
    by destruct (py_getattr obj "action").
Qed.

(** X17: for an object that holds [media_id], [action] and [feed_position]
    itself, an action sends exactly one signed POST to
    [media/<media_id>/<action>/] whose payload is the object's attributes; a
    [feed_position] of [None] is deleted from the object first, so the
    payload never carries a null feed position, and the other attributes are
    sent as they are. *)
Theorem post_act_sends (E : Env) (st : State) (obj : PyObject)
    (media_id action feed_position : pyval) :
  inst_attrs obj !! "media_id" = Some media_id ->
  inst_attrs obj !! "action" = Some action ->
  inst_attrs obj !! "feed_position" = Some feed_position ->
  exists payload,
    _post_act E {| run_world := st; run_obj := obj |}
    = (transport E (trace st) (post_act_request E media_id action payload),
       {| run_world := {| trace := trace st ++ [post_act_request E media_id action payload];
                          draws := draws st |};
          run_obj := {| class_attrs := class_attrs obj; inst_attrs := payload |} |})
    /\ payload = (if py_is_none feed_position
                  then delete "feed_position" (inst_attrs obj) else inst_attrs obj)
    /\ payload !! "feed_position" <> Some PNone
    /\ (forall k, k <> "feed_position" -> payload !! k = inst_attrs obj !! k)
    /\ signed (post_act_request E media_id action payload) = true
    /\ endpoint (post_act_request E media_id action payload)
       = "media/" +:+ py_str E media_id +:+ "/" +:+ py_str E action +:+ "/".
Proof.
  intros Hmid Hact Hfp. eexists. split; [|split; [reflexivity|]].
  - rewrite post_act_run. unfold py_getattr at 1. rewrite Hfp.
    destruct (py_is_none feed_position) eqn:Hnone.
    + unfold py_delattr. rewrite Hfp. unfold py_getattr. cbn [inst_attrs class_attrs].
      rewrite !lookup_delete_ne by done. rewrite Hmid, Hact. reflexivity.
    + unfold py_getattr. rewrite Hmid, Hact. by destruct obj.
  - destruct (py_is_none feed_position) eqn:Hnone.
    + split; [by rewrite lookup_delete_eq|].
      split; [|done]. intros k Hk. by rewrite lookup_delete_ne.
    + split; [|done]. rewrite Hfp. intros [= ->]. done.
Qed.

Lemma post_act_sends_witness :
  exists payload,
    _post_act (sample_env friendly) {| run_world := initial; run_obj := sample_like |}
    = (transport (sample_env friendly) (trace initial)
         (post_act_request (sample_env friendly) (PStr "42") (PStr "like") payload),
       {| run_world :=
            {| trace := trace initial
                        ++ [post_act_request (sample_env friendly) (PStr "42")
                              (PStr "like") payload];
               draws := draws initial |};
          run_obj := {| class_attrs := class_attrs sample_like; inst_attrs := payload |} |})
    /\ payload = (if py_is_none PNone
                  then delete "feed_position" (inst_attrs sample_like)
                  else inst_attrs sample_like)
    /\ payload !! "feed_position" <> Some PNone
    /\ (forall k, k <> "feed_position" -> payload !! k = inst_attrs sample_like !! k)
    /\ signed (post_act_request (sample_env friendly) (PStr "42") (PStr "like") payload)
       = true
    /\ endpoint (post_act_request (sample_env friendly) (PStr "42") (PStr "like") payload)
       = "media/" +:+ py_str (sample_env friendly) (PStr "42") +:+ "/"
         +:+ py_str (sample_env friendly) (PStr "like") +:+ "/".
Proof.
  apply (post_act_sends (sample_env friendly) initial sample_like
           (PStr "42") (PStr "like") PNone); reflexivity.
Defined.

(** X18: an action object whose [feed_position] is [None] can be used once.
    The call deletes the attribute from the object, so unless the class
    supplies a feed position other than [None], the next call on the same
    object raises [AttributeError] and sends nothing. *)
Theorem post_act_twice (E : Env) (run run' : Run PyObject) (o : outcome Response) :
  inst_attrs (run_obj run) !! "feed_position" = Some PNone ->
  class_attrs (run_obj run) !! "feed_position" = None
  \/ class_attrs (run_obj run) !! "feed_position" = Some PNone ->
  _post_act E run = (o, run') ->
  _post_act E run' = (Raise AttributeError, run').
Proof.
  destruct run as [st obj]. cbn [run_obj]. intros Hfp Hclass.
  rewrite post_act_run. unfold py_getattr at 1. rewrite Hfp. cbn [py_is_none].
  unfold py_delattr. rewrite Hfp.
  set (obj' := {| class_attrs := class_attrs obj;
                  inst_attrs := delete "feed_position" (inst_attrs obj) |}).
  assert (forall st', _post_act E {| run_world := st'; run_obj := obj' |}
                      = (Raise AttributeError, {| run_world := st'; run_obj := obj' |}))
    as Hagain.
  { intros st'. rewrite post_act_run. unfold py_getattr at 1, py_delattr.
    cbn [inst_attrs class_attrs obj']. rewrite lookup_delete_eq.
    by destruct Hclass as [-> | ->]. }
  destruct (py_getattr obj' "media_id"); [|by intros [= _ <-]].
  destruct (py_getattr obj' "action"); [|by intros [= _ <-]].
  cbn zeta. by intros [= _ <-].
Qed.

Lemma post_act_twice_witness :
  _post_act (sample_env friendly)
    (_post_act (sample_env friendly) {| run_world := initial; run_obj := sample_like |}).2
  = (Raise AttributeError,
     (_post_act (sample_env friendly) {| run_world := initial; run_obj := sample_like |}).2).
Proof.
  apply (post_act_twice (sample_env friendly)
           {| run_world := initial; run_obj := sample_like |} _ (Ok friendly_response)).
  - reflexivity.
  - left. reflexivity.
  - vm_compute. reflexivity.
Defined.

(** *** Pagination *)

(** Every run of [post_retrieve_by_user], by cases. *)
Lemma post_retrieve_by_user_run (E : Env) (to_dict : RetrieveByUser -> dict)
    (st : State) (obj : RetrieveByUser) :
  post_retrieve_by_user E to_dict {| run_world := st; run_obj := obj |}
  = if (0 <? page obj)%Z && py_is_none (max_id obj) then
      (Ok (PBool false), {| run_world := st; run_obj := obj |})
    else
      match to_dict obj !! "max_id" with
      | None => (Raise (KeyError "max_id"), {| run_world := st; run_obj := obj |})
      | Some _ =>
        match delete "max_id" (to_dict obj) !! "user_id" with
        | None => (Raise (KeyError "user_id"), {| run_world := st; run_obj := obj |})
        | Some _ =>
          let req := retrieve_request E (user_id obj)
                       (delete "user_id" (delete "max_id" (to_dict obj))) in
          let st1 := {| trace := trace st ++ [req]; draws := draws st |} in
          match transport E (trace st) req with
          | Raise e => (Raise e, {| run_world := st1; run_obj := obj |})
          | Ok resp =>
            match json resp with
            | Raise e => (Raise e, {| run_world := st1; run_obj := obj |})
            | Ok resp_as_json =>
              match py_get resp_as_json "next_max_id" with
              | Raise e => (Raise e, {| run_world := st1; run_obj := obj |})
              | Ok next_max_id =>
                  (py_getitem resp_as_json "items",
                   {| run_world := st1;
                      run_obj := {| page := page obj + 1; max_id := next_max_id;
                                    user_id := user_id obj |} |})
              end
            end
          end
        end
      end.
Proof.
  unfold post_retrieve_by_user, bind, this, update, lift, ret, with_world, _request,
    dict_pop.
  cbn [run_world run_obj].
  destruct ((0 <? page obj)%Z && py_is_none (max_id obj)); [done|].
  destruct (to_dict obj !! "max_id"); [|done]. cbn [run_world run_obj].
  destruct (delete "max_id" (to_dict obj) !! "user_id"); [|done].
  cbn [run_world run_obj].
  destruct (transport E (trace st) _) as [resp|]; [|done]. cbn [run_world run_obj].
  destruct (json resp) as [resp_as_json|]; [|done].
  destruct (py_get resp_as_json "next_max_id"); [|done].
  by destruct (py_getitem resp_as_json "items").
Qed.

(** X19: a retrieval that is not yet exhausted and is answered with a JSON
    object holding [items] sends exactly one GET to [feed/user/<user_id>/],
    returns the items, moves the object to the next page and stores the
    answer's [next_max_id] in it, or [None] when the answer has none. *)
Theorem post_retrieve_by_user_page (E : Env) (to_dict : RetrieveByUser -> dict)
    (st : State) (obj : RetrieveByUser) (resp : dict) (items : pyval) :
  (0 <? page obj)%Z && py_is_none (max_id obj) = false ->
  is_Some (to_dict obj !! "max_id") ->
  is_Some (to_dict obj !! "user_id") ->
  transport E (trace st)
    (retrieve_request E (user_id obj) (delete "user_id" (delete "max_id" (to_dict obj))))
  = Ok {| json := Ok (PDict resp) |} ->
  resp !! "items" = Some items ->
  post_retrieve_by_user E to_dict {| run_world := st; run_obj := obj |}
  = (Ok items,
     {| run_world :=
          {| trace := trace st
                      ++ [retrieve_request E (user_id obj)
                            (delete "user_id" (delete "max_id" (to_dict obj)))];
             draws := draws st |};
        run_obj := {| page := page obj + 1;
                      max_id := default PNone (resp !! "next_max_id");
                      user_id := user_id obj |} |}).
Proof.
  intros Hmore [m Hm] [u Hu] Hresp Hitems.
  rewrite post_retrieve_by_user_run, Hmore, Hm.
  rewrite lookup_delete_ne by done. rewrite Hu. cbn zeta. rewrite Hresp.
  cbn [json py_get py_getitem]. by rewrite Hitems.
Qed.

Lemma post_retrieve_by_user_page_witness :
  post_retrieve_by_user (sample_env one_page) sample_retrieve_to_dict
    {| run_world := initial; run_obj := sample_retrieve |}
  = (Ok (PList [PStr "post"]),
     {| run_world :=
          {| trace := trace initial
                      ++ [retrieve_request (sample_env one_page) (user_id sample_retrieve)
                            (delete "user_id"
                               (delete "max_id" (sample_retrieve_to_dict sample_retrieve)))];
             draws := draws initial |};
        run_obj := {| page := page sample_retrieve + 1;
                      max_id := default PNone
                                  (py_dict [("items", PList [PStr "post"]);
                                            ("status", PStr "ok")] !! "next_max_id");
                      user_id := user_id sample_retrieve |} |}).
Proof.
  apply (post_retrieve_by_user_page (sample_env one_page) sample_retrieve_to_dict initial
           sample_retrieve).
  - reflexivity.
  - eexists. vm_compute. reflexivity.
  - eexists. vm_compute. reflexivity.
  - reflexivity.
  - reflexivity.
Defined.

(** X20: pagination ends for good. Once the object is past the first page
    and holds no cursor, a call returns [False], sends nothing and leaves the
    object as it is, so any number of further calls does the same; this is
    the state a page without [next_max_id] leaves the object in. *)
Theorem post_retrieve_by_user_exhausted (E : Env) (to_dict : RetrieveByUser -> dict)
    (run : Run RetrieveByUser) (n : nat) :
  (0 < page (run_obj run))%Z ->
  max_id (run_obj run) = PNone ->
  post_retrieve_by_user E to_dict run = (Ok (PBool false), run)
  /\ Nat.iter n (fun r => (post_retrieve_by_user E to_dict r).2) run = run.
Proof.
  intros Hpage Hmax.
  assert (post_retrieve_by_user E to_dict run = (Ok (PBool false), run)) as Hstep.
  { destruct run as [st obj]. cbn [run_obj] in *.
    rewrite post_retrieve_by_user_run, Hmax.
    by destruct (Z.ltb_spec 0 (page obj)); [|lia]. }
  split; [done|].
  induction n as [|n IH]; [done|]. by rewrite Nat.iter_succ, IH, Hstep.
Qed.

Lemma post_retrieve_by_user_exhausted_witness :
  post_retrieve_by_user (sample_env one_page) sample_retrieve_to_dict
    (post_retrieve_by_user (sample_env one_page) sample_retrieve_to_dict
       {| run_world := initial; run_obj := sample_retrieve |}).2
  = (Ok (PBool false),
     (post_retrieve_by_user (sample_env one_page) sample_retrieve_to_dict
        {| run_world := initial; run_obj := sample_retrieve |}).2).
Proof.
  apply (post_retrieve_by_user_exhausted (sample_env one_page) sample_retrieve_to_dict
           _ 0).
  - reflexivity.
  - reflexivity.
Defined.

(** X21: the cursor is never sent. Whatever a retrieval does, it adds at
    most one request to the trace, a GET whose query has neither [max_id] nor
    [user_id]: both are popped from the serialized object before the call. *)
Theorem post_retrieve_by_user_query (E : Env) (to_dict : RetrieveByUser -> dict)
    (run : Run RetrieveByUser) :
  trace (run_world (post_retrieve_by_user E to_dict run).2) = trace (run_world run)
  \/ exists q,
       trace (run_world (post_retrieve_by_user E to_dict run).2)
       = trace (run_world run) ++ [retrieve_request E (user_id (run_obj run)) q]
       /\ q !! "max_id" = None
       /\ q !! "user_id" = None
       /\ forall k, k <> "max_id" -> k <> "user_id" ->
                    q !! k = to_dict (run_obj run) !! k.
Proof.
  destruct run as [st obj]. cbn [run_world run_obj].
  rewrite post_retrieve_by_user_run.
  destruct ((0 <? page obj)%Z && py_is_none (max_id obj)); [by left|].
  destruct (to_dict obj !! "max_id"); [|by left].
  destruct (delete "max_id" (to_dict obj) !! "user_id"); [|by left].
  right. exists (delete "user_id" (delete "max_id" (to_dict obj))). split.
  - cbn zeta. by outcome_cases.
  - split; [by rewrite lookup_delete_ne, lookup_delete_eq|].
    split; [by rewrite lookup_delete_eq|].
    intros k Hm Hu. by rewrite !lookup_delete_ne.
Qed.

(** X22: the object is advanced before the items are read. When the answer
    is a JSON object without [items], the call raises [KeyError], yet the
    object has already moved to the next page and taken the answer's
    cursor. *)
Theorem post_retrieve_by_user_no_items (E : Env) (to_dict : RetrieveByUser -> dict)
    (st : State) (obj : RetrieveByUser) (resp : dict) :
  (0 <? page obj)%Z && py_is_none (max_id obj) = false ->
  is_Some (to_dict obj !! "max_id") ->
  is_Some (to_dict obj !! "user_id") ->
  transport E (trace st)
    (retrieve_request E (user_id obj) (delete "user_id" (delete "max_id" (to_dict obj))))
  = Ok {| json := Ok (PDict resp) |} ->
  resp !! "items" = None ->
  exists st1,
    post_retrieve_by_user E to_dict {| run_world := st; run_obj := obj |}
    = (Raise (KeyError "items"),
       {| run_world := st1;
          run_obj := {| page := page obj + 1;
                        max_id := default PNone (resp !! "next_max_id");
                        user_id := user_id obj |} |}).
Proof.
  intros Hmore [m Hm] [u Hu] Hresp Hitems.
  rewrite post_retrieve_by_user_run, Hmore, Hm.
  rewrite lookup_delete_ne by done. rewrite Hu. cbn zeta. rewrite Hresp.
  cbn [json py_get py_getitem]. rewrite Hitems. by eexists.
Qed.

Lemma post_retrieve_by_user_no_items_witness :
  exists st1,
    post_retrieve_by_user (sample_env no_items) sample_retrieve_to_dict
      {| run_world := initial; run_obj := sample_retrieve |}
    = (Raise (KeyError "items"),
       {| run_world := st1;
          run_obj := {| page := page sample_retrieve + 1;
                        max_id := default PNone
                                    (py_dict [("next_max_id", PStr "cursor");
                                              ("status", PStr "fail")] !! "next_max_id");
                        user_id := user_id sample_retrieve |} |}).
Proof.
  apply (post_retrieve_by_user_no_items (sample_env no_items) sample_retrieve_to_dict
           initial sample_retrieve).
  - reflexivity.
  - eexists. vm_compute. reflexivity.
  - eexists. vm_compute. reflexivity.
  - reflexivity.
  - reflexivity.
Defined.

(** *** More on the video upload *)

Lemma upload_empty_video_witness :
  _upload_video_in_chunks blank_env sample_video initial
  = (Ok {[ "stream_id" := PStr "A" ]},
     {| trace := trace initial
                 ++ [start_request (video_rupload_params blank_env sample_video 720 1280)
                       (uuid4 blank_env (draws initial))];
        draws := S (draws initial) |}).
Proof.
  apply (upload_empty_video blank_env sample_video initial 720 1280
           (py_dict [("stream_id", PStr "A"); ("status", PStr "ok");
                     ("venues", PList [PDict (py_dict [("external_id", PStr "123")])])])
           (PStr "A")); reflexivity.
Defined.

Lemma upload_video_in_chunks_failures_witness :
  exists e st1,
    _upload_video_in_chunks unreadable_env sample_video initial = (Raise e, st1)
    /\ List.length (trace st1) = 1.
Proof.
  destruct (upload_video_in_chunks_failures unreadable_env sample_video initial)
    as (_ & _ & Hstart).
  destruct (Hstart 720%Z 1280%Z eq_refl eq_refl) as [_ Hopen].
  eexists _, _. split.
  - apply (Hopen (py_dict [("stream_id", PStr "A"); ("status", PStr "ok");
                           ("venues",
                            PList [PDict (py_dict [("external_id", PStr "123")])])])
             (PStr "A") (OSError 2)); reflexivity.
  - reflexivity.
Defined.

(** X23: sending a duration loses its decimal point: the digits before and
    after a separator are run together, so ["1.5"] goes out as ["15"]; the
    value is not converted to milliseconds. Normalizing twice changes
    nothing more. *)
Theorem duration_ms_lossy (a b : string) :
  duration_ms (a +:+ "." +:+ b) = duration_ms (a +:+ b)
  /\ duration_ms (a +:+ "," +:+ b) = duration_ms (a +:+ b)
  /\ duration_ms (duration_ms a) = duration_ms a.
Proof.
  assert (forall s t, list_ascii_of_string (s +:+ t)
                      = list_ascii_of_string s ++ list_ascii_of_string t) as Happ.
  { induction s as [|c s IH]; intros t; [done|].
    change (String c s +:+ t) with (String c (s +:+ t)). cbn. by rewrite IH. }
  assert (forall s t, list_ascii_of_string s = list_ascii_of_string t -> s = t) as Hinj.
  { intros s t Hst. rewrite <- (string_of_list_ascii_of_string s),
      <- (string_of_list_ascii_of_string t). by rewrite Hst. }
  assert (forall s, list_ascii_of_string (duration_ms s)
                    = filter (fun c => c <> ","%char /\ c <> "."%char)
                             (list_ascii_of_string s)) as Hfilter.
  { intros s. unfold duration_ms. rewrite !str_replace_delete. apply list_filter_filter. }
  split; [|split]; apply Hinj; rewrite !Hfilter.
  - by rewrite !Happ, !filter_app.
  - by rewrite !Happ, !filter_app.
  - rewrite list_filter_filter. apply list_filter_iff. tauto.
Qed.

(** *** Image types *)

Lemma str_split_segments (sep : ascii) (s : string) :
  Forall (fun seg => ~ In sep (list_ascii_of_string seg)) (str_split sep s).
Proof.
  induction s as [|c s IH]; cbn [str_split].
  - constructor; [|constructor]. cbn. tauto.
  - destruct (Ascii.eqb_spec c sep) as [->|Hne].
    + constructor; [cbn; tauto|done].
    + pose proof (str_split_nonempty sep s) as Hnonempty.
      destruct (str_split sep s) as [|h t]; [done|].
      inversion IH as [|? ? Hh Ht]; subst. constructor; [|done].
      cbn. intros [?|?]; [by apply Hne|by apply Hh].
Qed.

Lemma str_split_no_sep (sep : ascii) (s : string) :
  ~ In sep (list_ascii_of_string s) -> str_split sep s = [s].
Proof.
  induction s as [|c s IH]; [done|]. cbn. intros Hnot.
  destruct (Ascii.eqb_spec c sep) as [->|Hne]; [by destruct Hnot; left|].
  rewrite IH; [done|]. intros Hin. apply Hnot. by right.
Qed.

Lemma get_image_type_no_dot (s : string) :
  ~ In "."%char (list_ascii_of_string (get_image_type (StrPath s))).
Proof.
  unfold get_image_type, list_last.
  pose proof (str_split_segments "." s) as Hall.
  pose proof (str_split_nonempty "." s) as Hne.
  destruct (exists_last Hne) as (init & seg & Hsplit).
  rewrite Hsplit, last_last. rewrite Hsplit in Hall.
  by apply Forall_app in Hall as [_ [Hseg _]%Forall_cons].
Qed.

(** X24: for a [str], the image type is the text after the last dot: it
    never contains a dot; for [stem.ext] with a dot-free [ext] it is [ext];
    and for a path without any dot it is the whole path, so a file named
    [jpeg] counts as a JPEG. *)
Theorem get_image_type_str (s : string) :
  ~ In "."%char (list_ascii_of_string (get_image_type (StrPath s)))
  /\ (~ In "."%char (list_ascii_of_string s) -> get_image_type (StrPath s) = s)
  /\ (forall stem ext,
        s = stem +:+ String "." ext -> ~ In "."%char (list_ascii_of_string ext) ->
        get_image_type (StrPath s) = ext).
Proof.
  split; [apply get_image_type_no_dot|split].
  - intros Hnot. unfold get_image_type. by rewrite str_split_no_sep.
  - intros stem ext -> Hext. apply get_image_type_extension. by apply str_split_no_sep.
Qed.

(** X25: for a [Path] the image type is the suffix, which [pathlib] gives
    empty or with its leading dot. Either way the JPEG check rejects it, so
    the thumbnail step raises without any request for every thumbnail given
    as a [Path], [thumb.jpg] included. Such a type is what some [str] path
    gives exactly when the suffix is empty. *)
Theorem get_image_type_path_object (p : Path) :
  suffix p = "" \/ (exists ext, suffix p = String "." ext) ->
  not_jpeg (get_image_type (PathObj p)) = true
  /\ ((exists s, get_image_type (PathObj p) = get_image_type (StrPath s))
      <-> suffix p = "")
  /\ (forall (E : Env) obj hdrs st,
        thumbnail_path obj = PathObj p ->
        exists e, _upload_video_thumbnail E obj hdrs st
                  = (Raise e, {| trace := trace st; draws := S (draws st) |})).
Proof.
  intros Hp. split; [by apply get_image_type_Path|]. split; [split|].
  - intros [s Heq]. destruct Hp as [Hp|[ext Hp]]; [done|].
    destruct (get_image_type_no_dot s). rewrite <- Heq.
    cbn [get_image_type]. rewrite Hp. by left.
  - intros Hempty. exists "". cbn [get_image_type]. by rewrite Hempty.
  - intros E obj hdrs st Hobj. apply upload_video_thumbnail_rejected_silent.
    rewrite Hobj. by apply get_image_type_Path.
Qed.

Lemma get_image_type_path_object_witness :
  (not_jpeg (get_image_type (PathObj {| path_text := "thumb.jpg"; suffix := ".jpg" |}))
   = true
   /\ forall s, get_image_type (PathObj {| path_text := "thumb.jpg"; suffix := ".jpg" |})
                <> get_image_type (StrPath s))
  /\ (not_jpeg (get_image_type (PathObj {| path_text := "thumb"; suffix := "" |})) = true
      /\ exists s, get_image_type (PathObj {| path_text := "thumb"; suffix := "" |})
                   = get_image_type (StrPath s)).
Proof.
  split.
  - destruct (get_image_type_path_object {| path_text := "thumb.jpg"; suffix := ".jpg" |})
      as (Hreject & Hstr & _).
    { right. exists "jpg". reflexivity. }
    split; [exact Hreject|]. intros s Heq.
    discriminate (proj1 Hstr (ex_intro _ s Heq)).
  - destruct (get_image_type_path_object {| path_text := "thumb"; suffix := "" |})
      as (Hreject & Hstr & _).
    { left. reflexivity. }
    split; [exact Hreject|]. apply Hstr. reflexivity.
Defined.

(** *** Signing *)

Lemma request_fb_places_id_issues (E : Env) (obj : Location) :
  issues id signed_iff_configure (_request_fb_places_id E obj).
Proof.
  unfold _request_fb_places_id. issues_steps.
  all: apply issues_request; split; [done|by intros [|]].
Qed.

(** X26: in an image publish the configure call is the only signed one: the
    image upload and the location search go out unsigned, whatever the
    outcome of the publish. *)
Theorem post_post_signs_configure_only (E : Env) (quality : option Z) (run : PostRun) :
  exists new,
    trace (world (post_post E quality run).2) = trace (world run) ++ new
    /\ Forall signed_iff_configure new.
Proof.
  assert (issues world signed_iff_configure (post_post E quality)) as Hrun; [|apply Hrun].
  assert (issues world signed_iff_configure (get_obj : M PostRun Post)) as Hget.
  { intros s. exists []. by rewrite app_nil_r. }
  assert (forall o, issues world signed_iff_configure (set_obj o)) as Hset.
  { intros o s. exists []. cbn. by rewrite app_nil_r. }
  unfold post_post.
  repeat first
    [ progress issues_steps
    | apply Hget | apply Hset
    | apply issues_in_world ].
  - apply upload_image_issues. intros h content. split; [done|].
    intros Hep. by destruct (upload_image_request_endpoint E h content) as [? ?], Hep.
  - apply request_fb_places_id_issues.
  - apply issues_request. split; [by left|done].
  - apply issues_request. split; [by right|done].
Qed.
